(** * MAX77665 battery charger driver: a shallow embedding

    Source: [drivers/power/max77665-charger.c].

    The driver talks to the chip through the MFD register transport
    ([max77665_read] / [max77665_write]) and to the rest of the kernel
    through timers, delayed work, the extcon cable framework and the
    power-supply class.  The embedding keeps the driver's own control flow
    and arithmetic as written, threads the [struct max77665_charger]
    fields and the chip through every function, and records each
    externally visible action in a log together with the charger fields at
    that instant.

    Left out: the kernel log messages ([dev_err], [dev_info], [dev_dbg]),
    which change nothing the driver reads back; [current_limit_mutex],
    since the functions are run one at a time here; probe, removal, the
    sysfs attributes and the watchdog's timer and acknowledgment
    handlers. *)

From stdpp Require Import base gmap strings list.
From Stdlib Require Import ZArith Lia.

Local Open Scope Z_scope.

(** ** C integer types

    The kernel is built with [-fno-strict-overflow], so [int] arithmetic
    wraps; [unsigned int] and [uint8_t] wrap by definition. *)

Module CInt.

Definition INT_MAX : Z := 2147483647.
Definition INT_MIN : Z := -2147483648.
Definition UINT_MAX : Z := 4294967295.

(** Reduction of a mathematical integer to the value an [int] holds. *)
Definition to_int (z : Z) : Z :=
  (z + 2147483648) mod 4294967296 - 2147483648.

(** Reduction to [unsigned int] / [uint32_t]. *)
Definition to_uint (z : Z) : Z := z mod 4294967296.

(** Reduction to [uint8_t]. *)
Definition to_u8 (z : Z) : Z := z mod 256.

Definition add (a b : Z) : Z := to_int (a + b).
Definition sub (a b : Z) : Z := to_int (a - b).
(** [/] on [int] truncates towards zero. *)
Definition div (a b : Z) : Z := to_int (Z.quot a b).

Definition in_int (z : Z) : Prop := INT_MIN <= z <= INT_MAX.

End CInt.

(** ** What the driver takes from its headers

    [linux/max77665-charger.h] and [linux/mfd/max77665.h] are not part of
    the sources at hand.  Every register address, bit, function-like macro
    and constant the driver uses from them is a field here, so that each
    result below holds whatever the headers define. *)

Inductive max77665_mode := OFF | CHARGER | OTG.

#[global] Instance max77665_mode_eq_dec : EqDecision max77665_mode.
Proof. solve_decision. Defined.

Class max77665_header := {
  (* registers *)
  MAX77665_CHG_INT : Z;
  MAX77665_CHG_INT_MASK : Z;
  MAX77665_CHG_INT_OK : Z;
  MAX77665_CHG_DTLS_00 : Z;
  MAX77665_CHG_DTLS_01 : Z;
  MAX77665_CHG_DTLS_02 : Z;
  MAX77665_CHG_CNFG_00 : Z;
  MAX77665_CHG_CNFG_06 : Z;
  MAX77665_CHG_CNFG_09 : Z;
  MAX77665_CHG_CNFG_12 : Z;
  MAX77665_SAFEOUTCTRL : Z;
  (* interrupt / status bits *)
  BYP_BIT : Z;
  DETBAT_BIT : Z;
  BAT_BIT : Z;
  CHG_BIT : Z;
  CHGIN_BIT : Z;
  (* detail sub-fields *)
  CHGIN_DTLS_MASK : Z -> Z;
  CHGIN_DTLS_VALID : Z;
  BYP_DTLS_MASK : Z -> Z;
  BYP_DTLS_VALID : Z;
  BAT_DTLS_MASK : Z -> Z;
  BAT_DTLS_OVERCURRENT : Z;
  charging_is_on : Z -> bool;
  (* mode configuration *)
  CHARGER_OFF_OTG_OFF_BUCK_ON_BOOST_OFF : Z;
  CHARGER_ON_OTG_OFF_BUCK_ON_BOOST_OFF : Z;
  CHARGER_OFF_OTG_ON_BUCK_OFF_BOOST_ON : Z;
  WDTEN : Z;
  VCHGIN_REGULATION_4V3 : Z;
  ENSAFEOUT1 : Z;
  ENSAFEOUT2 : Z;
  (* input current *)
  CURRENT_STEP_mA : Z;
  MIN_CURRENT_LIMIT_mA : Z;
  (* watchdog *)
  MAX77665_WATCHDOG_TIMER_PERIOD_S : Z;
  (* errno *)
  EINVAL : Z
}.

(** ** The register transport

    [max77665_read] and [max77665_write] of the MFD core, against an
    arbitrary chip: the chip is a state machine of its own, each transfer
    returns a status ([< 0] is a transport failure) and may change the
    chip, and so may the passing of time. *)

Class max77665_bus := {
  chip : Type;
  max77665_read : chip -> Z -> Z * Z * chip;
  max77665_write : chip -> Z -> Z -> Z * chip;
  chip_elapse : chip -> Z -> chip
}.

(** ** Driver state *)

(** [struct max77665_charger_plat_data], the two members the driver
    tests: whether the [update_status] callback is set, and
    [is_battery_present]. *)
Record max77665_charger_plat_data := {
  update_status : bool;
  is_battery_present : bool
}.

(** [struct max77665_charger].  The embedded kernel objects are kept by
    their observable state: an alarm is either idle or armed with the
    relative expiry it was started with (seconds), a delayed work is
    either idle or pending with its delay (milliseconds). *)
Record max77665_charger := {
  mode : max77665_mode;
  plat_data : max77665_charger_plat_data;
  max_current_mA : Z;              (* int *)
  ac_online : Z;                   (* uint8_t *)
  usb_online : Z;                  (* uint8_t *)
  wdt_alarm : option Z;
  wdt_ack_work : option Z;
  set_max_current_work : option Z;
  oc_count : Z                     (* unsigned int *)
}.

Definition with_mode (m : max77665_mode) (c : max77665_charger) :=
  {| mode := m; plat_data := plat_data c;
     max_current_mA := max_current_mA c; ac_online := ac_online c;
     usb_online := usb_online c; wdt_alarm := wdt_alarm c;
     wdt_ack_work := wdt_ack_work c;
     set_max_current_work := set_max_current_work c;
     oc_count := oc_count c |}.

Definition with_max_current_mA (v : Z) (c : max77665_charger) :=
  {| mode := mode c; plat_data := plat_data c;
     max_current_mA := v; ac_online := ac_online c;
     usb_online := usb_online c; wdt_alarm := wdt_alarm c;
     wdt_ack_work := wdt_ack_work c;
     set_max_current_work := set_max_current_work c;
     oc_count := oc_count c |}.

Definition with_ac_online (v : Z) (c : max77665_charger) :=
  {| mode := mode c; plat_data := plat_data c;
     max_current_mA := max_current_mA c; ac_online := v;
     usb_online := usb_online c; wdt_alarm := wdt_alarm c;
     wdt_ack_work := wdt_ack_work c;
     set_max_current_work := set_max_current_work c;
     oc_count := oc_count c |}.

Definition with_usb_online (v : Z) (c : max77665_charger) :=
  {| mode := mode c; plat_data := plat_data c;
     max_current_mA := max_current_mA c; ac_online := ac_online c;
     usb_online := v; wdt_alarm := wdt_alarm c;
     wdt_ack_work := wdt_ack_work c;
     set_max_current_work := set_max_current_work c;
     oc_count := oc_count c |}.

Definition with_wdt_alarm (v : option Z) (c : max77665_charger) :=
  {| mode := mode c; plat_data := plat_data c;
     max_current_mA := max_current_mA c; ac_online := ac_online c;
     usb_online := usb_online c; wdt_alarm := v;
     wdt_ack_work := wdt_ack_work c;
     set_max_current_work := set_max_current_work c;
     oc_count := oc_count c |}.

Definition with_wdt_ack_work (v : option Z) (c : max77665_charger) :=
  {| mode := mode c; plat_data := plat_data c;
     max_current_mA := max_current_mA c; ac_online := ac_online c;
     usb_online := usb_online c; wdt_alarm := wdt_alarm c;
     wdt_ack_work := v;
     set_max_current_work := set_max_current_work c;
     oc_count := oc_count c |}.

Definition with_set_max_current_work (v : option Z) (c : max77665_charger) :=
  {| mode := mode c; plat_data := plat_data c;
     max_current_mA := max_current_mA c; ac_online := ac_online c;
     usb_online := usb_online c; wdt_alarm := wdt_alarm c;
     wdt_ack_work := wdt_ack_work c;
     set_max_current_work := v;
     oc_count := oc_count c |}.

Definition with_oc_count (v : Z) (c : max77665_charger) :=
  {| mode := mode c; plat_data := plat_data c;
     max_current_mA := max_current_mA c; ac_online := ac_online c;
     usb_online := usb_online c; wdt_alarm := wdt_alarm c;
     wdt_ack_work := wdt_ack_work c;
     set_max_current_work := set_max_current_work c;
     oc_count := v |}.

(** ** Externally visible actions *)

Inductive work_item := WDT_ACK_WORK | SET_MAX_CURRENT_WORK.

Inductive supply := AC_SUPPLY | USB_SUPPLY.

Inductive action :=
| RegWrite (reg value ret : Z)
| RegRead (reg ret value : Z)
| Msleep (ms : Z)
| ScheduleDelayedWork (w : work_item) (delay_ms : Z)
| CancelDelayedWorkSync (w : work_item)
| AlarmStart (secs : Z)
| AlarmCancel
| UpdateStatus (mA : Z)
| PowerSupplyChanged (psy : supply).

#[global] Instance work_item_eq_dec : EqDecision work_item.
Proof. solve_decision. Defined.
#[global] Instance supply_eq_dec : EqDecision supply.
Proof. solve_decision. Defined.
#[global] Instance action_eq_dec : EqDecision action.
Proof. solve_decision. Defined.

Section Driver.

Context {hdr : max77665_header} {bus : max77665_bus}.

(** The chip, the driver's [struct max77665_charger], and the log of
    actions so far, oldest first; each action is stamped with the charger
    fields as they were when it was issued. *)
Record world := World {
  hw : chip;
  drv : max77665_charger;
  klog : list (action * max77665_charger)
}.

(** Driver code is a state transformer over [world]. *)
Definition M (A : Type) : Type := world -> A * world.

Definition ret {A} (a : A) : M A := fun w => (a, w).

Definition bind {A B} (c : M A) (k : A -> M B) : M B :=
  fun w => let (a, w') := c w in k a w'.

Definition emit (a : action) : M unit :=
  fun w => (tt, World (hw w) (drv w) (klog w ++ [(a, drv w)])).

Definition get_charger : M max77665_charger := fun w => (drv w, w).

Definition set_charger (f : max77665_charger -> max77665_charger) : M unit :=
  fun w => (tt, World (hw w) (f (drv w)) (klog w)).

Definition run {A} (c : M A) (w : world) : world := snd (c w).
Definition result {A} (c : M A) (w : world) : A := fst (c w).

(** The actions a computation adds to the log. *)
Definition issued {A} (c : M A) (w : world) : list (action * max77665_charger) :=
  drop (length (klog w)) (klog (run c w)).

End Driver.

Declare Scope drv_scope.
Delimit Scope drv_scope with drv.
Notation "'let*' x ':=' c 'in' k" := (bind c (fun x => k))
  (at level 10, x pattern, c at level 100, k at level 200) : drv_scope.
Notation "c1 '>>' c2" := (bind c1 (fun _ => c2))
  (at level 100, c2 at level 200, right associativity) : drv_scope.
Local Open Scope drv_scope.

Section Primitives.

Context {hdr : max77665_header} {bus : max77665_bus}.

(** One register write on the transport. *)
Definition bus_write (reg value : Z) : M Z :=
  fun w =>
    let (rc, h) := max77665_write (hw w) reg value in
    (rc, World h (drv w) (klog w ++ [(RegWrite reg value rc, drv w)])).

(** One register read on the transport; the byte lands in a [uint8_t]. *)
Definition bus_read (reg : Z) : M (Z * Z) :=
  fun w =>
    let '(rc, data, h) := max77665_read (hw w) reg in
    let read := CInt.to_u8 data in
    ((rc, read), World h (drv w) (klog w ++ [(RegRead reg rc read, drv w)])).

(** Modelled from the spec: [msleep] of the kernel, outside the sources
    at hand; the caller waits for the settle interval while the chip
    goes on. *)
Definition msleep (ms : Z) : M unit :=
  fun w => (tt, World (chip_elapse (hw w) ms) (drv w)
                      (klog w ++ [(Msleep ms, drv w)])).

Definition work_of (w : work_item) (c : max77665_charger) : option Z :=
  match w with
  | WDT_ACK_WORK => wdt_ack_work c
  | SET_MAX_CURRENT_WORK => set_max_current_work c
  end.

Definition with_work (w : work_item) (v : option Z) (c : max77665_charger) :=
  match w with
  | WDT_ACK_WORK => with_wdt_ack_work v c
  | SET_MAX_CURRENT_WORK => with_set_max_current_work v c
  end.

(** Modelled from the spec: [schedule_delayed_work] of the kernel's
    workqueue, outside the sources at hand; it schedules the task to run
    after the delay, and leaves a task that is already pending as it
    is. *)
Definition schedule_delayed_work (w : work_item) (delay_ms : Z) : M unit :=
  emit (ScheduleDelayedWork w delay_ms) >>
  set_charger (fun c =>
    match work_of w c with
    | Some _ => c
    | None => with_work w (Some delay_ms) c
    end).

(** Modelled from the spec: [cancel_delayed_work_sync] of the kernel's
    workqueue, outside the sources at hand; it cancels a pending task. *)
Definition cancel_delayed_work_sync (w : work_item) : M unit :=
  emit (CancelDelayedWorkSync w) >>
  set_charger (with_work w None).

(** Modelled from the spec: [alarm_start] of the kernel's alarm timers,
    outside the sources at hand; it arms the timer, here kept with the
    offset from now in seconds. *)
Definition alarm_start (secs : Z) : M unit :=
  emit (AlarmStart secs) >>
  set_charger (with_wdt_alarm (Some secs)).

(** Modelled from the spec: [alarm_cancel] of the kernel's alarm timers,
    outside the sources at hand; it cancels the timer. *)
Definition alarm_cancel : M unit :=
  emit AlarmCancel >>
  set_charger (with_wdt_alarm None).

(** Modelled from the spec: the platform's [update_status] callback, the
    status-reporting collaborator told the present current ceiling. *)
Definition plat_update_status (mA : Z) : M unit := emit (UpdateStatus mA).

(** Modelled from the spec: [power_supply_changed] of the power-supply
    class, outside the sources at hand; it tells the power-path exposure
    that a supply's properties changed. *)
Definition power_supply_changed (psy : supply) : M unit :=
  emit (PowerSupplyChanged psy).

(** Modelled from the spec: [extcon_get_cable_state] of the extcon
    framework, outside the sources at hand.  An extcon device knows a
    set of cable names and whether each is attached; the state of a
    known cable is 1 or 0, an unknown name gives [-EINVAL]. *)
Definition extcon_get_cable_state (edev : gmap string bool) (name : string) : Z :=
  match edev !! name with
  | Some true => 1
  | Some false => 0
  | None => - EINVAL
  end.

End Primitives.

(** ** The driver *)

Section Code.

Context {hdr : max77665_header} {bus : max77665_bus}.

(** [max77665_write_reg]: values outside a byte are refused before the
    transport is touched. *)
Definition max77665_write_reg (reg value : Z) : M Z :=
  if (value <? 0) || (value >? 255) then ret (- EINVAL)
  else bus_write reg value.

(** [max77665_read_reg]: [value] is what the caller's variable holds
    before the call; it is overwritten only when the transfer
    succeeds.  Returns the status and the variable's content after the
    call. *)
Definition max77665_read_reg (reg : Z) (value : Z) : M (Z * Z) :=
  let* (rc, read) := bus_read reg in
  if 0 >? rc then ret (rc, value) else ret (rc, read).

(** [max77665_update_reg] *)
Definition max77665_update_reg (reg value : Z) (read_val : Z) : M Z :=
  let* (rc, read_val) := max77665_read_reg reg read_val in
  if negb (rc =? 0) then ret rc
  else max77665_write_reg reg (Z.lor read_val value).

(** [max77665_set_max_input_current] *)
Definition max77665_set_max_input_current (mA : Z) : M Z :=
  let* _ := max77665_write_reg MAX77665_CHG_CNFG_09
              (CInt.div mA CURRENT_STEP_mA) in
  ret 0.

(** [max77665_get_max_input_current]: [val] is the local of that name
    before the read, indeterminate in the source.  Returns the status
    and what is stored through [mA]. *)
Definition max77665_get_max_input_current (val : Z) : M (Z * Z) :=
  let* (rc, val) := max77665_read_reg MAX77665_CHG_CNFG_09 val in
  let val := Z.land val 127 in
  ret (rc, Z.max (CInt.to_int MIN_CURRENT_LIMIT_mA)
                 (CInt.to_int (CInt.to_uint (val * CURRENT_STEP_mA)))).

(** [power_supply_property], the two the driver lists. *)
Inductive power_supply_property :=
| POWER_SUPPLY_PROP_ONLINE
| POWER_SUPPLY_PROP_CURRENT_MAX.

(** [max77665_charger_set_property]; [intval] is in uA. *)
Definition max77665_charger_set_property
    (psp : power_supply_property) (intval : Z) : M Z :=
  match psp with
  | POWER_SUPPLY_PROP_CURRENT_MAX =>
      max77665_set_max_input_current (CInt.div intval 1000)
  | _ => ret (- EINVAL)
  end.

(** [max77665_enable_write] *)
Definition max77665_enable_write (access : bool) : M Z :=
  if access then max77665_write_reg MAX77665_CHG_CNFG_06 12
  else max77665_write_reg MAX77665_CHG_CNFG_06 0.

(** [max77665_check_charging_ok]: the two locals are read only after a
    successful transfer. *)
Definition max77665_check_charging_ok : M bool :=
  let* (rc, chgin_dtls) := max77665_read_reg MAX77665_CHG_DTLS_00 0 in
  if (rc <? 0) || negb (CHGIN_DTLS_MASK chgin_dtls =? CHGIN_DTLS_VALID)
  then ret false
  else
    let* (rc, byp_dtls) := max77665_read_reg MAX77665_CHG_DTLS_02 0 in
    if (rc <? 0) || negb (BYP_DTLS_MASK byp_dtls =? BYP_DTLS_VALID)
    then ret false
    else ret true.

(** The [do ... while] of [max77665_set_ideal_input_current], one
    unit of [fuel] per pass through the body; [None] when the fuel runs
    out before the loop is left, otherwise the function's return
    value. *)
Fixpoint ideal_input_current_search (fuel : nat) (min max : Z)
  : M (option Z) :=
  match fuel with
  | O => ret None
  | S fuel =>
      let mid := CInt.div (CInt.add min max) 2 in
      let* r := max77665_set_max_input_current mid in
      if r <? 0 then ret (Some r)
      else
        msleep 50 >>
        let* ok := max77665_check_charging_ok in
        let min := if ok then mid else min in
        let max := if ok then max else mid in
        if CURRENT_STEP_mA <=? CInt.sub max min
        then ideal_input_current_search fuel min max
        else
          set_charger (with_max_current_mA mid) >>
          ret (Some 0)
  end.

(** [max77665_set_ideal_input_current] *)
Definition max77665_set_ideal_input_current (fuel : nat) : M (option Z) :=
  let* charger := get_charger in
  ideal_input_current_search fuel 100 (max_current_mA charger).

(** [max77665_set_ideal_input_current_work]; [irq_mask] and
    [safeout_ctrl] are the locals of those names before their reads. *)
Definition max77665_set_ideal_input_current_work
    (fuel : nat) (irq_mask safeout_ctrl : Z) : M (option unit) :=
  let* ok := max77665_check_charging_ok in
  if negb ok then
    let* (_, irq_mask) := max77665_read_reg MAX77665_CHG_INT_MASK irq_mask in
    max77665_write_reg MAX77665_CHG_INT_MASK
      (Z.lor (Z.lor irq_mask BYP_BIT) CHGIN_BIT) >>
    let* (_, safeout_ctrl) :=
      max77665_read_reg MAX77665_SAFEOUTCTRL safeout_ctrl in
    max77665_write_reg MAX77665_SAFEOUTCTRL
      (Z.land safeout_ctrl (Z.lnot (Z.lor ENSAFEOUT1 ENSAFEOUT2))) >>
    let* r := max77665_set_ideal_input_current fuel in
    match r with
    | None => ret None
    | Some _ =>
        max77665_write_reg MAX77665_SAFEOUTCTRL safeout_ctrl >>
        max77665_write_reg MAX77665_CHG_INT_MASK irq_mask >>
        ret (Some tt)
    end
  else ret (Some tt).

(** [max77665_display_charger_status]: apart from the debug messages,
    three detail registers are read when any of the five bits is
    clear. *)
Definition max77665_display_charger_status (status : Z) : M unit :=
  let bits := [BYP_BIT; DETBAT_BIT; BAT_BIT; CHG_BIT; CHGIN_BIT] in
  let ok :=
    fold_left (fun ok bit => if Z.land status bit =? 0 then false else ok)
              bits true in
  if negb ok then
    max77665_read_reg MAX77665_CHG_DTLS_00 0 >>
    max77665_read_reg MAX77665_CHG_DTLS_01 0 >>
    max77665_read_reg MAX77665_CHG_DTLS_02 0 >>
    ret tt
  else ret tt.

(** [max77665_handle_charger_status]; [val] is the local of that name
    before the read of the battery details, indeterminate in the
    source. *)
Definition max77665_handle_charger_status (status : Z) (val : Z) : M Z :=
  max77665_display_charger_status status >>
  (if (Z.land status CHG_BIT =? 0) || (Z.land status CHGIN_BIT =? 0)
   then schedule_delayed_work SET_MAX_CURRENT_WORK 100
   else ret tt) >>
  (if Z.land status BAT_BIT =? 0 then
     let* (_, val) := max77665_read_reg MAX77665_CHG_DTLS_01 val in
     if BAT_DTLS_MASK val =? BAT_DTLS_OVERCURRENT
     then set_charger (fun c => with_oc_count (CInt.to_uint (oc_count c + 1)) c)
     else ret tt
   else ret tt) >>
  ret 0.

(** The value of [flags] after the mode tests of
    [max77665_set_charger_mode]. *)
Definition mode_flags (mode : max77665_mode) : Z :=
  match mode with
  | OFF => CHARGER_OFF_OTG_OFF_BUCK_ON_BOOST_OFF
  | CHARGER => Z.lor CHARGER_ON_OTG_OFF_BUCK_ON_BOOST_OFF WDTEN
  | OTG => CHARGER_OFF_OTG_ON_BUCK_OFF_BOOST_ON
  end.

(** [max77665_set_charger_mode] *)
Definition max77665_set_charger_mode (mode : max77665_mode) : M Z :=
  set_charger (with_mode mode) >>
  let* r := max77665_enable_write true in
  if r <? 0 then ret r
  else
    let flags := mode_flags mode in
    let* r := max77665_write_reg MAX77665_CHG_CNFG_00 flags in
    if r <? 0 then max77665_enable_write false
    else
      let* (_, flags) := max77665_read_reg MAX77665_CHG_CNFG_12 flags in
      let flags := Z.lor flags VCHGIN_REGULATION_4V3 in
      let* r := max77665_write_reg MAX77665_CHG_CNFG_12 flags in
      if r <? 0 then max77665_enable_write false
      else
        let* charger := get_charger in
        max77665_set_max_input_current (max_current_mA charger) >>
        max77665_enable_write false.

(** [max77665_charger_disable_wdt] *)
Definition max77665_charger_disable_wdt : M unit :=
  cancel_delayed_work_sync WDT_ACK_WORK >>
  alarm_cancel.

(** [max77665_disable_charger] *)
Definition max77665_disable_charger : M Z :=
  set_charger (with_max_current_mA 0) >>
  let* r := max77665_set_charger_mode OFF in
  max77665_charger_disable_wdt >>
  let* charger := get_charger in
  (if update_status (plat_data charger) then plat_update_status 0
   else ret tt) >>
  set_charger (with_ac_online 0) >>
  set_charger (with_usb_online 0) >>
  power_supply_changed USB_SUPPLY >>
  power_supply_changed AC_SUPPLY >>
  ret r.

(** The tail of [max77665_enable_charger] from the label [done]. *)
Definition enable_charger_done (r : Z) : M Z :=
  let* charger := get_charger in
  (if negb (usb_online charger =? 0) then power_supply_changed USB_SUPPLY
   else ret tt) >>
  (if negb (ac_online charger =? 0) then power_supply_changed AC_SUPPLY
   else ret tt) >>
  ret r.

(** The part of [max77665_enable_charger] between the cable tests and
    the label [done]; [val] is the local of
    [max77665_get_max_input_current]. *)
Definition enable_charger_apply (mode : max77665_mode) (val : Z) : M Z :=
  let* r := max77665_set_charger_mode mode in
  if r <? 0 then enable_charger_done r
  else
    alarm_start (Z.quot MAX77665_WATCHDOG_TIMER_PERIOD_S 2) >>
    let* charger := get_charger in
    if update_status (plat_data charger) then
      let* (r, ilim) := max77665_get_max_input_current val in
      if 0 >? r then enable_charger_done r
      else plat_update_status ilim >> enable_charger_done r
    else enable_charger_done r.

(** [max77665_enable_charger] *)
Definition max77665_enable_charger (edev : gmap string bool) (val : Z) : M Z :=
  set_charger (with_usb_online 0) >>
  set_charger (with_ac_online 0) >>
  let* charger := get_charger in
  (if update_status (plat_data charger) then plat_update_status 0
   else ret tt) >>
  if extcon_get_cable_state edev "USB-Host" =? 1 then
    set_charger (with_max_current_mA 0) >>
    enable_charger_apply OTG val
  else if extcon_get_cable_state edev "USB" =? 1 then
    set_charger (with_usb_online 1) >>
    set_charger (with_max_current_mA 500) >>
    enable_charger_apply CHARGER val
  else if extcon_get_cable_state edev "Charge-downstream" =? 1 then
    set_charger (with_usb_online 1) >>
    set_charger (with_max_current_mA 1500) >>
    enable_charger_apply CHARGER val
  else if extcon_get_cable_state edev "TA" =? 1 then
    set_charger (with_ac_online 1) >>
    set_charger (with_max_current_mA 2000) >>
    enable_charger_apply CHARGER val
  else if extcon_get_cable_state edev "Fast-charger" =? 1 then
    set_charger (with_ac_online 1) >>
    set_charger (with_max_current_mA 2200) >>
    enable_charger_apply CHARGER val
  else if extcon_get_cable_state edev "Slow-charger" =? 1 then
    set_charger (with_ac_online 1) >>
    set_charger (with_max_current_mA 500) >>
    enable_charger_apply CHARGER val
  else
    enable_charger_done 0.

(** [charger_extcon_handle_notifier]; [event] is [cable->event], the
    last raw event of the cable whose debounce timer ran out. *)
Definition charger_extcon_handle_notifier
    (event : Z) (edev : gmap string bool) (val : Z) : M unit :=
  let* (r, dtls) := max77665_read_reg MAX77665_CHG_DTLS_01 0 in
  if 0 >? r then ret tt
  else if (event =? 0) && negb (charging_is_on dtls) then
    max77665_disable_charger >> ret tt
  else if (event =? 1) && negb (charging_is_on dtls) then
    max77665_enable_charger edev val >> ret tt
  else ret tt.


(** [max77665_reset_charger] *)
Definition max77665_reset_charger (edev : gmap string bool) (val : Z) : M Z :=
  let* r := max77665_disable_charger in
  if r <? 0 then ret 0
  else max77665_enable_charger edev val >> ret 0.

End Code.

(** ** The calibration search as the specification words it

    "[min = 100], [max =] current ceiling at call time.  Loop while
    [(max - min) >= currentStepMA]: [mid = (min + max) / 2]; program the
    input-current ceiling register to [mid], a programming failure aborts
    and returns a device error; wait 50 ms; if charging is OK raise the
    floor, otherwise lower the ceiling.  Terminal [mid] becomes the new
    [state.maxCurrentMA]."  The loop test comes before the body, so [mid]
    may never have been set; the steps themselves are the driver's. *)

Section AsSpecified.

Context {hdr : max77665_header} {bus : max77665_bus}.

Fixpoint calibrate_while (fuel : nat) (min max : Z) (mid : option Z)
  : M (option Z) :=
  if CURRENT_STEP_mA <=? CInt.sub max min then
    match fuel with
    | O => ret None
    | S fuel =>
        let m := CInt.div (CInt.add min max) 2 in
        let* r := max77665_set_max_input_current m in
        if r <? 0 then ret (Some r)
        else
          msleep 50 >>
          let* ok := max77665_check_charging_ok in
          let min := if ok then m else min in
          let max := if ok then max else m in
          calibrate_while fuel min max (Some m)
    end
  else
    match mid with
    | Some m => set_charger (with_max_current_mA m) >> ret (Some 0)
    | None => ret (Some 0)
    end.

Definition calibrate_as_specified (fuel : nat) : M (option Z) :=
  let* charger := get_charger in
  calibrate_while fuel 100 (max_current_mA charger) None.

(** One probe of the search: program [mid], let it settle, ask whether
    charging is OK. *)
Definition probe (mid : Z) : M bool :=
  max77665_set_max_input_current mid >>
  msleep 50 >>
  max77665_check_charging_ok.

(** A calibration that is one probe at the midpoint of [100] and the
    ceiling, stored whatever the probe says. *)
Definition single_probe : M (option Z) :=
  let* charger := get_charger in
  let mid := CInt.div (CInt.add 100 (max_current_mA charger)) 2 in
  probe mid >>
  set_charger (with_max_current_mA mid) >>
  ret (Some 0).

End AsSpecified.

(** ** Vocabulary for the statements *)

Section Vocabulary.

Context {hdr : max77665_header} {bus : max77665_bus}.

(** [logs c w l]: run from [w], the computation [c] appends exactly [l]
    to the log. *)
Definition logs {A} (c : M A) (w : world)
    (l : list (action * max77665_charger)) : Prop :=
  klog (run c w) = klog w ++ l.

(** A computation is quiet when it leaves the charger fields alone and
    issues only actions in [E]. *)
Definition quiet (E : action -> Prop) {A} (c : M A) : Prop :=
  forall w,
    drv (run c w) = drv w /\
    exists l, logs c w l /\ Forall (fun e => E e.1 /\ e.2 = drv w) l.

(** Actions by kind. *)
Definition reg_read_of (a : action) : Prop :=
  match a with RegRead _ _ _ => True | _ => False end.

Definition reg_write_of (a : action) : Prop :=
  match a with RegWrite _ _ _ => True | _ => False end.

Definition reg_access (a : action) : Prop := reg_read_of a \/ reg_write_of a.

Definition wdt_disarm (a : action) : Prop :=
  a = CancelDelayedWorkSync WDT_ACK_WORK \/ a = AlarmCancel.

(** What one pass of the calibration search may issue. *)
Definition probe_action (a : action) : Prop := reg_access a \/ a = Msleep 50.

(** The charger fields at the four stages of
    [max77665_disable_charger]: once the ceiling is cleared and the mode
    stored, once the acknowledgment work is cancelled, once the alarm
    is cancelled, and at the end. *)
Definition disable_cleared (c : max77665_charger) : max77665_charger :=
  with_mode OFF (with_max_current_mA 0 c).
Definition disable_work_cancelled (c : max77665_charger) : max77665_charger :=
  with_wdt_ack_work None (disable_cleared c).
Definition disable_disarmed (c : max77665_charger) : max77665_charger :=
  with_wdt_alarm None (disable_work_cancelled c).
Definition disable_final (c : max77665_charger) : max77665_charger :=
  with_usb_online 0 (with_ac_online 0 (disable_disarmed c)).

(** What [max77665_disable_charger] issues after the register traffic of
    the mode change. *)
Definition disable_tail (c : max77665_charger)
  : list (action * max77665_charger) :=
  [(CancelDelayedWorkSync WDT_ACK_WORK, disable_cleared c);
   (AlarmCancel, disable_work_cancelled c)] ++
  (if update_status (plat_data c)
   then [(UpdateStatus 0, disable_disarmed c)] else []) ++
  [(PowerSupplyChanged USB_SUPPLY, disable_final c);
   (PowerSupplyChanged AC_SUPPLY, disable_final c)].

(** The kinds of source the enable path tells apart, with the cable
    name, mode, ceiling and online flags of each. *)
Inductive source_class :=
| ReverseBoostHost
| UsbSource
| ChargeDownstream
| GenericAc
| FastAc
| SlowAc.

Definition cable_name (k : source_class) : string :=
  match k with
  | ReverseBoostHost => "USB-Host"
  | UsbSource => "USB"
  | ChargeDownstream => "Charge-downstream"
  | GenericAc => "TA"
  | FastAc => "Fast-charger"
  | SlowAc => "Slow-charger"
  end.

Definition class_mode (k : source_class) : max77665_mode :=
  match k with ReverseBoostHost => OTG | _ => CHARGER end.

Definition class_ceiling (k : source_class) : Z :=
  match k with
  | ReverseBoostHost => 0
  | UsbSource => 500
  | ChargeDownstream => 1500
  | GenericAc => 2000
  | FastAc => 2200
  | SlowAc => 500
  end.

Definition class_usb_online (k : source_class) : Z :=
  match k with UsbSource | ChargeDownstream => 1 | _ => 0 end.

Definition class_ac_online (k : source_class) : Z :=
  match k with GenericAc | FastAc | SlowAc => 1 | _ => 0 end.

Definition cable_attached (edev : gmap string bool) (k : source_class) : bool :=
  extcon_get_cable_state edev (cable_name k) =? 1.

(** The class of the attached source: the first attached cable in the
    order the driver asks for them, if any. *)
Definition classify (edev : gmap string bool) : option source_class :=
  List.find (cable_attached edev)
    [ReverseBoostHost; UsbSource; ChargeDownstream; GenericAc; FastAc; SlowAc].

Definition supply_changed_of (a : action) : Prop :=
  match a with PowerSupplyChanged _ => True | _ => False end.

(** Integers small enough that sums and differences of two of them are
    exact in [int]. *)
Definition no_wrap (z : Z) : Prop := -1073741823 <= z <= 1073741823.

(** The tests [max77665_handle_charger_status] makes on the status
    snapshot. *)
Definition recalibration_wanted (status : Z) : bool :=
  (Z.land status CHG_BIT =? 0) || (Z.land status CHGIN_BIT =? 0).

Definition battery_not_ok (status : Z) : bool :=
  Z.land status BAT_BIT =? 0.

(** The charger fields once the recalibration work has been handed to
    [schedule_delayed_work] with a delay of 100 ms. *)
Definition recalibration_scheduled (c : max77665_charger) : max77665_charger :=
  match set_max_current_work c with
  | Some _ => c
  | None => with_set_max_current_work (Some 100) c
  end.

End Vocabulary.

(** ** A chip to run the driver against

    A sample of header values and a simulated chip, used to evaluate the
    driver on concrete inputs.  The general results do not depend on
    them. *)

Module Sample.

#[export] Instance header : max77665_header := {|
  MAX77665_CHG_INT := 176;
  MAX77665_CHG_INT_MASK := 177;
  MAX77665_CHG_INT_OK := 178;
  MAX77665_CHG_DTLS_00 := 179;
  MAX77665_CHG_DTLS_01 := 180;
  MAX77665_CHG_DTLS_02 := 181;
  MAX77665_CHG_CNFG_00 := 183;
  MAX77665_CHG_CNFG_06 := 189;
  MAX77665_CHG_CNFG_09 := 192;
  MAX77665_CHG_CNFG_12 := 195;
  MAX77665_SAFEOUTCTRL := 198;
  BYP_BIT := 1;
  DETBAT_BIT := 4;
  BAT_BIT := 8;
  CHG_BIT := 16;
  CHGIN_BIT := 64;
  CHGIN_DTLS_MASK := fun val => Z.shiftr (Z.land val 96) 5;
  CHGIN_DTLS_VALID := 3;
  BYP_DTLS_MASK := fun val => Z.land val 15;
  BYP_DTLS_VALID := 0;
  BAT_DTLS_MASK := fun val => Z.shiftr (Z.land val 112) 4;
  BAT_DTLS_OVERCURRENT := 6;
  charging_is_on := fun val => Z.land val 15 <? 4;
  CHARGER_OFF_OTG_OFF_BUCK_ON_BOOST_OFF := 4;
  CHARGER_ON_OTG_OFF_BUCK_ON_BOOST_OFF := 5;
  CHARGER_OFF_OTG_ON_BUCK_OFF_BOOST_ON := 10;
  WDTEN := 16;
  VCHGIN_REGULATION_4V3 := 0;
  ENSAFEOUT1 := 64;
  ENSAFEOUT2 := 128;
  CURRENT_STEP_mA := 20;
  MIN_CURRENT_LIMIT_mA := 60;
  MAX77665_WATCHDOG_TIMER_PERIOD_S := 80;
  EINVAL := 22
|}.

(** The simulated chip: a register file, the current in mA the attached
    source can deliver, and whether transfers in each direction get
    through.  The input and regulation-loop details are valid as long
    as the programmed ceiling does not exceed what the source delivers;
    the charger detail register reads as stored. *)
Record sim := Sim {
  regs : gmap Z Z;
  supply_mA : Z;
  reads_ok : bool;
  writes_ok : bool
}.

Definition reg (s : sim) (r : Z) : Z := default 0 (regs s !! r).

Definition sim_read (s : sim) (r : Z) : Z * Z * sim :=
  if reads_ok s then
    let v :=
      if r =? 179 then 96
      else if r =? 181 then
        (if reg s 192 * 20 <=? supply_mA s then 0 else 1)
      else reg s r in
    (0, v, s)
  else (-5, 0, s).

Definition sim_write (s : sim) (r v : Z) : Z * sim :=
  if writes_ok s then
    (0, Sim (<[r := v]> (regs s)) (supply_mA s) (reads_ok s) (writes_ok s))
  else (-5, s).

#[export] Instance bus : max77665_bus := {|
  chip := sim;
  max77665_read := sim_read;
  max77665_write := sim_write;
  chip_elapse := fun s _ => s
|}.

Definition plat : max77665_charger_plat_data :=
  {| update_status := true; is_battery_present := true |}.

Definition plat_no_callback : max77665_charger_plat_data :=
  {| update_status := false; is_battery_present := true |}.

(** A charger in mode [m] with ceiling [mA], nothing pending. *)
Definition charger_at (p : max77665_charger_plat_data)
    (m : max77665_mode) (mA : Z) : max77665_charger :=
  {| mode := m; plat_data := p; max_current_mA := mA;
     ac_online := 0; usb_online := 0; wdt_alarm := None;
     wdt_ack_work := None; set_max_current_work := None;
     oc_count := 0 |}.

(** A healthy chip on a source good for [supply] mA. *)
Definition chip_on (supply : Z) : sim := Sim ∅ supply true true.

Definition boot (s : sim) (c : max77665_charger) : world := World s c [].

(** A healthy chip whose charger details register reads [dtls01]. *)
Definition chip_reporting (dtls01 : Z) : sim := Sim {[180 := dtls01]} 0 true true.

(** Charging from USB at 500 mA with the watchdog alarm armed. *)
Definition charging_from_usb : max77665_charger :=
  with_wdt_alarm (Some 40) (with_usb_online 1 (charger_at plat CHARGER 500)).

(** An adapter rated 2000 mA that sags above 300 mA. *)
Definition weak_adapter : world :=
  boot (chip_on 300) (charger_at plat CHARGER 2000).

(** A USB source that sags above 450 mA, the ceiling register still at
    500 mA (25 steps). *)
Definition sagging_usb : world :=
  boot (Sim {[192 := 25]} 450 true true) (charger_at plat CHARGER 500).

(** The same with every register write failing on the transport. *)
Definition sagging_usb_write_fault : world :=
  boot (Sim {[192 := 25]} 450 true false) (charger_at plat CHARGER 500).

(** The charger switched off, ceiling 0, the ceiling register left at
    2200 mA (110 steps). *)
Definition switched_off : world :=
  boot (Sim {[192 := 110]} 300 true true) (charger_at plat OFF 0).

(** Charging from USB on a platform without a status callback. *)
Definition without_callback : world :=
  boot (chip_on 300) (charger_at plat_no_callback CHARGER 500).

(** Charging from USB while the chip reports the charger off (detail 8),
    and while it reports fast charging (detail 1). *)
Definition chip_says_off : world := boot (chip_reporting 8) charging_from_usb.
Definition chip_says_on : world := boot (chip_reporting 1) charging_from_usb.

(** The overcurrent counter at [UINT_MAX], the battery detail reading
    overcurrent (6 in bits 6:4). *)
Definition counter_at_max : world :=
  boot (chip_reporting 96) (with_oc_count 4294967295 charging_from_usb).

End Sample.

(** * More of the driver *)

(** ** The lookup tables *)

(** [chg_cc], fast charge current in mA. *)
Definition chg_cc : list Z :=
  [0; 33; 66; 99; 133; 166; 199; 233; 266; 299;
   333; 366; 399; 432; 466; 499; 532; 566; 599; 632;
   666; 699; 732; 765; 799; 832; 865; 899; 932; 965;
   999; 1032; 1065; 1098; 1132; 1165; 1198; 1232; 1265;
   1298; 1332; 1365; 1398; 1421; 1465; 1498; 1531; 1565;
   1598; 1631; 1665; 1698; 1731; 1764; 1798; 1831; 1864;
   1898; 1931; 1964; 1998; 2031; 2064; 2097].

(** [chg_cv_prm], primary charge termination voltage in mV. *)
Definition chg_cv_prm : list Z :=
  [3650; 3675; 3700; 3725; 3750;
   3775; 3800; 3825; 3850; 3875;
   3900; 3925; 3950; 3975; 4000;
   4025; 4050; 4075; 4100; 4125;
   4150; 4175; 4200; 4225; 4250;
   4275; 4300; 4325; 4340; 4350;
   4375; 4400].


(** [tbl[i]] of a table. *)
Definition tbl_at (tbl : list Z) (i : Z) : Z := nth (Z.to_nat i) tbl 0.

Section Convert.

Context {hdr : max77665_header}.

(** The [for] loop of [convert_to_reg], started at index [i] on the rest
    [tbl] of the table: it stops at the first entry that brackets [val]
    with its successor, or at the last entry. *)
Fixpoint convert_to_reg_scan (tbl : list Z) (val : Z) (i : Z) : Z :=
  match tbl with
  | a :: (b :: _) as rest =>
      if (a <=? val) && (val <? b) then i
      else convert_to_reg_scan rest val (i + 1)
  | _ => i
  end.

(** [convert_to_reg] on a table of [size >= 1] entries; [val] is taken as
    [unsigned int]. *)
Definition convert_to_reg (tbl : list Z) (val : Z) : Z :=
  let val := CInt.to_uint val in
  if (val <? tbl_at tbl 0) || (val >? tbl_at tbl (Z.of_nat (length tbl) - 1))
  then - EINVAL
  else convert_to_reg_scan tbl val 0.

End Convert.



(** Whether a table is in strictly increasing order. *)
Fixpoint increasingb (tbl : list Z) : bool :=
  match tbl with
  | a :: (b :: _) as rest => (a <? b) && increasingb rest
  | _ => true
  end.

(** ** Initialisation, the watchdog heartbeat and the cable debouncer *)

(** More of what the driver takes from its headers: the registers and
    field values of the initialisation and the watchdog clear bits. *)
Class max77665_init_header := {
  MAX77665_CHG_CNFG_01 : Z;
  MAX77665_CHG_CNFG_02 : Z;
  MAX77665_CHG_CNFG_04 : Z;
  FAST_CHARGE_DURATION_4HR : Z;
  CHARGER_RESTART_THRESHOLD_150mV : Z;
  LOW_BATTERY_PREQ_ENABLE : Z;
  WDTCLR : Z
}.

Section MoreCode.

Context {hdr : max77665_header} {ihdr : max77665_init_header}
        {bus : max77665_bus}.

(** [max77665_charger_init]; [fast_chg_cc] and [term_volt] are the
    members of the platform data of those names.  Every path ends at the
    label [error], where the status of the locking write replaces
    [ret]. *)
Definition max77665_charger_init (fast_chg_cc term_volt : Z) : M Z :=
  let* r := max77665_enable_write true in
  if r <? 0 then max77665_enable_write false
  else
    let val := Z.lor (Z.lor FAST_CHARGE_DURATION_4HR
                            CHARGER_RESTART_THRESHOLD_150mV)
                     LOW_BATTERY_PREQ_ENABLE in
    let* r := max77665_update_reg MAX77665_CHG_CNFG_01 val 0 in
    if r <? 0 then max77665_enable_write false
    else
      let* r :=
        (if negb (fast_chg_cc =? 0) then
           max77665_update_reg MAX77665_CHG_CNFG_02
             (convert_to_reg chg_cc fast_chg_cc) 0
         else ret r) in
      if r <? 0 then max77665_enable_write false
      else
        (if negb (term_volt =? 0) then
           max77665_update_reg MAX77665_CHG_CNFG_04
             (convert_to_reg chg_cv_prm term_volt) 0
         else ret r) >>
        max77665_enable_write false.

(** The watchdog's wake lock [wdt_wake_lock] is kept beside the rest of
    the state: [true] while it is held. *)
Definition wdt_state : Type := world * bool.

(** [max77665_charger_wdt_timer], the alarm callback: it takes the wake
    lock and queues the acknowledgment work without delay. *)
Definition max77665_charger_wdt_timer (s : wdt_state) : wdt_state :=
  (run (schedule_delayed_work WDT_ACK_WORK 0) s.1, true).

(** [max77665_charger_wdt_ack_work_handler]: acknowledge the watchdog,
    start the alarm again for 30 s, release the wake lock. *)
Definition max77665_charger_wdt_ack_work_handler (s : wdt_state) : wdt_state :=
  (run (max77665_update_reg MAX77665_CHG_CNFG_06 WDTCLR 0 >>
        alarm_start 30) s.1,
   false).






(** A computation ends with the lock when the last thing it issues is the
    write that locks the configuration registers again, its status is what
    the computation returns, and before that it only accesses registers
    and leaves the charger fields alone. *)
Definition ends_with_lock (c : M Z) : Prop :=
  forall w,
    exists l rc,
      logs c w (l ++ [(RegWrite MAX77665_CHG_CNFG_06 0 rc, drv w)]) /\
      result c w = rc /\
      drv (run c w) = drv w /\
      Forall (fun e => reg_access e.1 /\ e.2 = drv w) l.

End MoreCode.


(** ** More vocabulary *)



Section MoreVocabulary.

Context {hdr : max77665_header} {bus : max77665_bus}.


End MoreVocabulary.

(** Sample values for the initialisation header. *)
Module SampleInit.

#[export] Instance init_header : max77665_init_header := {|
  MAX77665_CHG_CNFG_01 := 184;
  MAX77665_CHG_CNFG_02 := 185;
  MAX77665_CHG_CNFG_04 := 187;
  FAST_CHARGE_DURATION_4HR := 1;
  CHARGER_RESTART_THRESHOLD_150mV := 16;
  LOW_BATTERY_PREQ_ENABLE := 128;
  WDTCLR := 1
|}.

End SampleInit.
(** * Properties *)

(** ** C integers *)

Section CIntFacts.

Local Open Scope Z_scope.

Lemma to_int_id z : CInt.in_int z -> CInt.to_int z = z.
Proof.
  unfold CInt.in_int, CInt.INT_MIN, CInt.INT_MAX, CInt.to_int. intros Hz.
  rewrite Z.mod_small by lia. lia.
Qed.

Lemma to_u8_range z : 0 <= CInt.to_u8 z <= 255.
Proof.
  unfold CInt.to_u8. pose proof (Z.mod_pos_bound z 256). lia.
Qed.

End CIntFacts.

(** ** Reasoning about driver code *)

Section Logic.

Context {hdr : max77665_header} {bus : max77665_bus}.

Lemma run_bind {A B} (c : M A) (k : A -> M B) w :
  run (bind c k) w = run (k (result c w)) (run c w).
Proof. unfold run, result, bind. destruct (c w); reflexivity. Qed.

Lemma result_bind {A B} (c : M A) (k : A -> M B) w :
  result (bind c k) w = result (k (result c w)) (run c w).
Proof. unfold run, result, bind. destruct (c w); reflexivity. Qed.

Lemma run_eq {A} (c c' : M A) w : c w = c' w -> run c w = run c' w.
Proof. unfold run. intros ->. reflexivity. Qed.

Lemma issued_eq {A} (c c' : M A) w : c w = c' w -> issued c w = issued c' w.
Proof. unfold issued, run. intros ->. reflexivity. Qed.

Lemma run_set_charger f w :
  run (set_charger f) w = World (hw w) (f (drv w)) (klog w).
Proof. reflexivity. Qed.

Lemma run_ret {A} (a : A) w : run (ret a) w = w.
Proof. reflexivity. Qed.

Lemma logs_issued {A} (c : M A) w l : logs c w l -> issued c w = l.
Proof.
  unfold logs, issued. intros ->. apply drop_app_length.
Qed.

Lemma logs_ret {A} (a : A) w : logs (ret a) w [].
Proof. unfold logs. rewrite run_ret, app_nil_r. reflexivity. Qed.

Lemma logs_bind {A B} (c : M A) (k : A -> M B) w l1 l2 :
  logs c w l1 ->
  logs (k (result c w)) (run c w) l2 ->
  logs (bind c k) w (l1 ++ l2).
Proof.
  unfold logs. intros H1 H2.
  rewrite run_bind, H2, H1, app_assoc. reflexivity.
Qed.

Lemma logs_emit a w : logs (emit a) w [(a, drv w)].
Proof. reflexivity. Qed.

Lemma quiet_drv E {A} (c : M A) w : quiet E c -> drv (run c w) = drv w.
Proof. intros H. apply H. Qed.

Lemma quiet_ret E {A} (a : A) : quiet E (ret a).
Proof.
  intros w. split; [reflexivity|].
  exists []. split; [apply logs_ret | constructor].
Qed.

Lemma quiet_bind E {A B} (c : M A) (k : A -> M B) :
  quiet E c -> (forall a, quiet E (k a)) -> quiet E (bind c k).
Proof.
  intros Hc Hk w.
  destruct (Hc w) as (Hd1 & l1 & Hl1 & Hf1).
  destruct (Hk (result c w) (run c w)) as (Hd2 & l2 & Hl2 & Hf2).
  split.
  - rewrite run_bind, Hd2, Hd1. reflexivity.
  - exists (l1 ++ l2). split; [eapply logs_bind; eassumption|].
    apply Forall_app. split; [assumption|].
    rewrite Hd1 in Hf2. assumption.
Qed.

Lemma quiet_weaken (E E' : action -> Prop) {A} (c : M A) :
  (forall a, E a -> E' a) -> quiet E c -> quiet E' c.
Proof.
  intros HE Hc w. destruct (Hc w) as (Hd & l & Hl & Hf).
  split; [assumption|]. exists l. split; [assumption|].
  eapply Forall_impl; [eassumption|]. intros [a c'] [? ?]. auto.
Qed.

Lemma quiet_emit (E : action -> Prop) a : E a -> quiet E (emit a).
Proof.
  intros Ha w. split; [reflexivity|].
  exists [(a, drv w)]. split; [apply logs_emit|].
  constructor; [split; [assumption | reflexivity] | constructor].
Qed.

Lemma quiet_get_charger E : quiet E get_charger.
Proof.
  intros w. split; [reflexivity|].
  exists []. split; [apply (logs_ret (drv w)) | constructor].
Qed.

Lemma quiet_bus_write (E : action -> Prop) reg value :
  (forall rc, E (RegWrite reg value rc)) -> quiet E (bus_write reg value).
Proof.
  intros HE w. unfold quiet, logs, run, bus_write.
  destruct (max77665_write (hw w) reg value) as [rc h]. simpl.
  split; [reflexivity|].
  eexists. split; [reflexivity|].
  constructor; [split; [apply HE | reflexivity] | constructor].
Qed.

Lemma quiet_bus_read (E : action -> Prop) reg :
  (forall rc v, E (RegRead reg rc v)) -> quiet E (bus_read reg).
Proof.
  intros HE w. unfold quiet, logs, run, bus_read.
  destruct (max77665_read (hw w) reg) as [[rc data] h]. simpl.
  split; [reflexivity|].
  eexists. split; [reflexivity|].
  constructor; [split; [apply HE | reflexivity] | constructor].
Qed.

Lemma quiet_msleep (E : action -> Prop) ms :
  E (Msleep ms) -> quiet E (msleep ms).
Proof.
  intros HE w. split; [reflexivity|].
  exists [(Msleep ms, drv w)]. split; [reflexivity|].
  constructor; [split; [assumption | reflexivity] | constructor].
Qed.

Lemma quiet_write_reg reg value :
  quiet reg_write_of (max77665_write_reg reg value).
Proof.
  unfold max77665_write_reg.
  destruct ((value <? 0) || (value >? 255)).
  - apply quiet_ret.
  - apply quiet_bus_write. intros rc. exact I.
Qed.

Lemma quiet_read_reg reg value :
  quiet reg_read_of (max77665_read_reg reg value).
Proof.
  unfold max77665_read_reg. apply quiet_bind.
  - apply quiet_bus_read. intros rc v. exact I.
  - intros [rc read]. destruct (0 >? rc); apply quiet_ret.
Qed.

Lemma quiet_write_reg_access reg value :
  quiet reg_access (max77665_write_reg reg value).
Proof.
  eapply quiet_weaken; [|apply quiet_write_reg]. intros a Ha. right. exact Ha.
Qed.

Lemma quiet_read_reg_access reg value :
  quiet reg_access (max77665_read_reg reg value).
Proof.
  eapply quiet_weaken; [|apply quiet_read_reg]. intros a Ha. left. exact Ha.
Qed.

Lemma quiet_set_max_input_current mA :
  quiet reg_write_of (max77665_set_max_input_current mA).
Proof.
  unfold max77665_set_max_input_current. apply quiet_bind.
  - apply quiet_write_reg.
  - intros _. apply quiet_ret.
Qed.

Lemma quiet_enable_write access :
  quiet reg_write_of (max77665_enable_write access).
Proof.
  unfold max77665_enable_write. destruct access; apply quiet_write_reg.
Qed.

Lemma quiet_check_charging_ok :
  quiet reg_read_of max77665_check_charging_ok.
Proof.
  unfold max77665_check_charging_ok. apply quiet_bind.
  - apply quiet_read_reg.
  - intros [rc v]. destruct (_ || _); [apply quiet_ret|].
    apply quiet_bind; [apply quiet_read_reg|].
    intros [rc' v']. destruct (_ || _); apply quiet_ret.
Qed.

Lemma quiet_get_max_input_current val :
  quiet reg_read_of (max77665_get_max_input_current val).
Proof.
  unfold max77665_get_max_input_current. apply quiet_bind.
  - apply quiet_read_reg.
  - intros [rc v]. apply quiet_ret.
Qed.

Lemma quiet_display_charger_status status :
  quiet reg_read_of (max77665_display_charger_status status).
Proof.
  unfold max77665_display_charger_status.
  destruct (negb _); [|apply quiet_ret].
  repeat (apply quiet_bind; [apply quiet_read_reg | intros ?]).
  apply quiet_ret.
Qed.

End Logic.

(** ** The mode controller *)

Section ModeController.

Context {hdr : max77665_header} {bus : max77665_bus}.

(** Unlocking the configuration registers always reaches the
    transport. *)
Lemma enable_write_logs access w :
  exists rc,
    logs (max77665_enable_write access) w
      [(RegWrite MAX77665_CHG_CNFG_06 (if access then 12 else 0) rc, drv w)]
    /\ result (max77665_enable_write access) w = rc.
Proof.
  unfold logs, run, result, max77665_enable_write, max77665_write_reg.
  destruct access; simpl; unfold bus_write;
    destruct (max77665_write (hw w) MAX77665_CHG_CNFG_06 _) as [rc h];
    exists rc; split; reflexivity.
Qed.

(** Everything [max77665_set_charger_mode] does after storing the mode
    is register traffic. *)
Lemma set_charger_mode_spec m w :
  drv (run (max77665_set_charger_mode m) w) = with_mode m (drv w) /\
  exists rc l,
    logs (max77665_set_charger_mode m) w
      ((RegWrite MAX77665_CHG_CNFG_06 12 rc, with_mode m (drv w)) :: l) /\
    Forall (fun e => reg_access e.1 /\ e.2 = with_mode m (drv w)) l.
Proof.
  unfold max77665_set_charger_mode.
  set (w1 := run (set_charger (with_mode m)) w).
  assert (Hw1 : drv w1 = with_mode m (drv w)) by reflexivity.
  assert (Hk1 : klog w1 = klog w) by reflexivity.
  destruct (enable_write_logs true w1) as (rc & Hlog & Hrc).
  match goal with
  | |- context [bind (max77665_enable_write true) ?k] => set (rest := k)
  end.
  assert (Hq : forall r, quiet reg_access (rest r)).
  { intros r. unfold rest. destruct (r <? 0); [apply quiet_ret|].
    apply quiet_bind; [apply quiet_write_reg_access|]. intros r1.
    destruct (r1 <? 0);
      [eapply quiet_weaken; [|apply quiet_enable_write]; intros a Ha; right; exact Ha|].
    apply quiet_bind; [apply quiet_read_reg_access|]. intros [r2 flags].
    apply quiet_bind; [apply quiet_write_reg_access|]. intros r3.
    destruct (r3 <? 0);
      [eapply quiet_weaken; [|apply quiet_enable_write]; intros a Ha; right; exact Ha|].
    apply quiet_bind; [apply quiet_get_charger|]. intros c.
    apply quiet_bind;
      [eapply quiet_weaken; [|apply quiet_set_max_input_current]; intros a Ha; right; exact Ha|].
    intros _.
    eapply quiet_weaken; [|apply quiet_enable_write]. intros a Ha. right. exact Ha. }
  pose proof (quiet_drv reg_write_of (max77665_enable_write true) w1
                (quiet_enable_write true)) as Hd2.
  destruct (Hq (result (max77665_enable_write true) w1)
               (run (max77665_enable_write true) w1)) as (Hd3 & l & Hl & Hf).
  rewrite Hd2, Hw1 in Hd3, Hf.
  split.
  - rewrite !run_bind. fold w1. exact Hd3.
  - exists rc, l. split; [|exact Hf].
    unfold logs in *. rewrite !run_bind. fold w1.
    rewrite Hl, Hlog, Hk1, Hw1, <- app_assoc. reflexivity.
Qed.

End ModeController.

(** ** The disable path *)

Section DisablePath.

Context {hdr : max77665_header} {bus : max77665_bus}.

Lemma disable_charger_spec w :
  drv (run max77665_disable_charger w) = disable_final (drv w) /\
  exists rc l,
    logs max77665_disable_charger w
      ((RegWrite MAX77665_CHG_CNFG_06 12 rc, disable_cleared (drv w))
         :: l ++ disable_tail (drv w)) /\
    Forall (fun e => reg_access e.1 /\ e.2 = disable_cleared (drv w)) l.
Proof.
  unfold max77665_disable_charger.
  set (w1 := run (set_charger (with_max_current_mA 0)) w).
  destruct (set_charger_mode_spec OFF w1) as (Hd & rc & l & Hl & Hf).
  change (drv w1) with (with_max_current_mA 0 (drv w)) in Hd, Hl, Hf.
  fold (disable_cleared (drv w)) in Hd, Hl, Hf.
  unfold logs in *.
  change (klog w1) with (klog w) in Hl.
  rewrite !run_bind. fold w1.
  set (w2 := run (max77665_set_charger_mode OFF) w1) in *.
  destruct w2 as [h2 c2 k2]. simpl in Hd, Hl. subst c2 k2.
  split.
  - unfold max77665_charger_disable_wdt, cancel_delayed_work_sync,
      alarm_cancel, plat_update_status, power_supply_changed.
    destruct (update_status (plat_data (drv w))) eqn:Hu;
      cbn; rewrite ?Hu; cbn; reflexivity.
  - exists rc, l. split; [|exact Hf].
    unfold max77665_charger_disable_wdt, cancel_delayed_work_sync,
      alarm_cancel, plat_update_status, power_supply_changed, disable_tail.
    destruct (update_status (plat_data (drv w))) eqn:Hu;
      cbn; rewrite ?Hu; cbn;
      rewrite <- ?app_assoc; cbn; reflexivity.
Qed.

End DisablePath.

(** ** The enable path *)

Section EnablePath.

Context {hdr : max77665_header} {bus : max77665_bus}.

Lemma quiet_enable_charger_done r :
  quiet supply_changed_of (enable_charger_done r).
Proof.
  unfold enable_charger_done.
  apply quiet_bind; [apply quiet_get_charger|]. intros c.
  apply quiet_bind.
  { destruct (negb _); [apply quiet_emit; exact I | apply quiet_ret]. }
  intros _. apply quiet_bind.
  { destruct (negb _); [apply quiet_emit; exact I | apply quiet_ret]. }
  intros _. apply quiet_ret.
Qed.

(** Once the source is classified, the rest of the enable path stores
    the mode and, when the mode change went through, arms the watchdog
    alarm at half its period; nothing else in the charger fields
    moves. *)
Lemma enable_charger_apply_drv m val w :
  drv (run (enable_charger_apply m val) w) =
    if result (max77665_set_charger_mode m) w <? 0
    then with_mode m (drv w)
    else with_wdt_alarm (Some (Z.quot MAX77665_WATCHDOG_TIMER_PERIOD_S 2))
           (with_mode m (drv w)).
Proof.
  unfold enable_charger_apply. rewrite run_bind.
  destruct (set_charger_mode_spec m w) as (Hd & _).
  set (r := result (max77665_set_charger_mode m) w).
  set (w1 := run (max77665_set_charger_mode m) w) in *.
  destruct (r <? 0).
  - rewrite (quiet_drv _ _ _ (quiet_enable_charger_done r)). exact Hd.
  - rewrite run_bind.
    set (w2 := run (alarm_start _) w1).
    assert (Hd2 : drv w2 =
      with_wdt_alarm (Some (Z.quot MAX77665_WATCHDOG_TIMER_PERIOD_S 2))
        (with_mode m (drv w))).
    { unfold w2. cbn. rewrite Hd. reflexivity. }
    rewrite run_bind. change (run get_charger w2) with w2.
    change (result get_charger w2) with (drv w2).
    destruct (update_status (plat_data (drv w2))).
    + rewrite run_bind.
      pose proof (quiet_drv _ _ w2 (quiet_get_max_input_current val)) as Hd3.
      destruct (result (max77665_get_max_input_current val) w2) as [r3 ilim].
      destruct (0 >? r3).
      * rewrite (quiet_drv _ _ _ (quiet_enable_charger_done r3)).
        exact (eq_trans Hd3 Hd2).
      * rewrite run_bind.
        rewrite (quiet_drv _ _ _ (quiet_enable_charger_done r3)).
        exact (eq_trans Hd3 Hd2).
    + rewrite (quiet_drv _ _ _ (quiet_enable_charger_done r)). exact Hd2.
Qed.

(** The charger fields when the cable tests begin: both online flags
    cleared. *)
Lemma enable_charger_prefix (w : world) :
  let w0 :=
    run (set_charger (with_usb_online 0) >>
         set_charger (with_ac_online 0) >>
         let* charger := get_charger in
         if update_status (plat_data charger) then plat_update_status 0
         else ret tt) w in
  drv w0 = with_ac_online 0 (with_usb_online 0 (drv w)) /\
  hw w0 = hw w /\
  klog w0 =
    klog w ++ (if update_status (plat_data (drv w))
               then [(UpdateStatus 0, with_ac_online 0 (with_usb_online 0 (drv w)))]
               else []).
Proof.
  destruct w as [h c k].
  unfold run, bind, set_charger, get_charger, plat_update_status, emit, ret.
  cbn.
  destruct (update_status (plat_data c)); cbn;
    rewrite ?app_nil_r; repeat split; reflexivity.
Qed.

Lemma enable_charger_split edev val w :
  max77665_enable_charger edev val w =
  bind (set_charger (with_usb_online 0) >>
        set_charger (with_ac_online 0) >>
        let* charger := get_charger in
        if update_status (plat_data charger) then plat_update_status 0
        else ret tt)
    (fun _ =>
       if extcon_get_cable_state edev "USB-Host" =? 1 then
         set_charger (with_max_current_mA 0) >>
         enable_charger_apply OTG val
       else if extcon_get_cable_state edev "USB" =? 1 then
         set_charger (with_usb_online 1) >>
         set_charger (with_max_current_mA 500) >>
         enable_charger_apply CHARGER val
       else if extcon_get_cable_state edev "Charge-downstream" =? 1 then
         set_charger (with_usb_online 1) >>
         set_charger (with_max_current_mA 1500) >>
         enable_charger_apply CHARGER val
       else if extcon_get_cable_state edev "TA" =? 1 then
         set_charger (with_ac_online 1) >>
         set_charger (with_max_current_mA 2000) >>
         enable_charger_apply CHARGER val
       else if extcon_get_cable_state edev "Fast-charger" =? 1 then
         set_charger (with_ac_online 1) >>
         set_charger (with_max_current_mA 2200) >>
         enable_charger_apply CHARGER val
       else if extcon_get_cable_state edev "Slow-charger" =? 1 then
         set_charger (with_ac_online 1) >>
         set_charger (with_max_current_mA 500) >>
         enable_charger_apply CHARGER val
       else
         enable_charger_done 0) w.
Proof.
  unfold max77665_enable_charger, bind, set_charger, get_charger. cbn.
  destruct (update_status (plat_data (drv w))); reflexivity.
Qed.

End EnablePath.

(** * The mode controller, the disable path and the enable path *)

Section OrchestrationClaims.

Context {hdr : max77665_header} {bus : max77665_bus}.

(** C8: [max77665_set_charger_mode] stores the requested mode before it
    touches the chip.  Whatever the transport answers, the mode field
    holds the requested mode on return; the function does issue register
    traffic (the write that unlocks the configuration registers always
    goes out), and every action it issues is a register access made while
    the charger fields are the initial ones with only the mode replaced
    by the requested one. *)
Theorem set_charger_mode_stores_mode_first (m : max77665_mode) (w : world) :
  mode (drv (run (max77665_set_charger_mode m) w)) = m /\
  issued (max77665_set_charger_mode m) w <> [] /\
  Forall (fun e => reg_access e.1 /\ e.2 = with_mode m (drv w) /\ mode e.2 = m)
         (issued (max77665_set_charger_mode m) w).
Proof.
  destruct (set_charger_mode_spec m w) as (Hd & rc & l & Hl & Hf).
  apply logs_issued in Hl. rewrite Hl, Hd.
  split; [reflexivity|]. split; [discriminate|].
  constructor.
  - simpl. repeat split. right. exact I.
  - eapply Forall_impl; [exact Hf|].
    intros [a c] [Ha Hc]. simpl in *. subst c. repeat split. exact Ha.
Qed.

(** C10: [max77665_set_max_input_current] returns 0 from every state and
    for every current, whatever the register write returned.  So the
    writable CURRENT_MAX property returns 0 as well, and the calibration
    search, which would leave early on a negative return, either runs out
    of fuel or returns 0. *)
Theorem set_max_input_current_always_returns_0 :
  (forall mA w, result (max77665_set_max_input_current mA) w = 0) /\
  (forall intval w,
     result (max77665_charger_set_property POWER_SUPPLY_PROP_CURRENT_MAX intval) w = 0) /\
  (forall fuel min max w,
     result (ideal_input_current_search fuel min max) w = None \/
     result (ideal_input_current_search fuel min max) w = Some 0).
Proof.
  assert (H0 : forall mA w, result (max77665_set_max_input_current mA) w = 0).
  { intros mA w. unfold max77665_set_max_input_current.
    rewrite result_bind. reflexivity. }
  split; [exact H0|]. split.
  - intros intval w. simpl. apply H0.
  - induction fuel as [|fuel IH]; intros min max w.
    + left. reflexivity.
    + cbn [ideal_input_current_search]. rewrite result_bind, H0.
      change (0 <? 0) with false. cbv iota.
      rewrite !result_bind.
      destruct (CURRENT_STEP_mA <=? _).
      * apply IH.
      * right. rewrite result_bind. reflexivity.
Qed.

(** C4, as the code has it: after [max77665_disable_charger] the mode is
    OFF, the ceiling 0, both online flags 0, the acknowledgment work and
    the alarm of the watchdog are cancelled; the platform's status
    callback is told 0 exactly when the platform has set one. *)
Theorem disable_charger_final_state (w : world) :
  let c' := drv (run max77665_disable_charger w) in
  mode c' = OFF /\
  max_current_mA c' = 0 /\
  ac_online c' = 0 /\
  usb_online c' = 0 /\
  wdt_ack_work c' = None /\
  wdt_alarm c' = None /\
  (In (UpdateStatus 0) (map fst (issued max77665_disable_charger w)) <->
   update_status (plat_data (drv w)) = true).
Proof.
  destruct (disable_charger_spec w) as (Hd & rc & l & Hl & Hf).
  apply logs_issued in Hl. cbv zeta. rewrite Hd, Hl.
  repeat (split; [reflexivity|]).
  unfold disable_tail. rewrite map_cons, !map_app.
  split.
  - intros [H|H]; [discriminate H|].
    rewrite !in_app_iff in H. destruct H as [H|[H|[H|H]]].
    + apply in_map_iff in H. destruct H as ([a c] & Ha & Hin).
      rewrite Forall_forall in Hf. apply list_elem_of_In in Hin.
      destruct (Hf _ Hin) as [Hacc _]. simpl in *. subst a.
      destruct Hacc as [[]|[]].
    + simpl in H. destruct H as [H|[H|[]]]; discriminate H.
    + destruct (update_status (plat_data (drv w))); [reflexivity|].
      destruct H.
    + simpl in H. destruct H as [H|[H|[]]]; discriminate H.
  - intros Hu. rewrite Hu. right. rewrite !in_app_iff.
    right. right. left. left. reflexivity.
Qed.

(** C9, as the code has it: [max77665_disable_charger] cancels the
    watchdog's acknowledgment work and alarm after it has cleared the
    ceiling and gone through the register traffic of the change to OFF
    (at least the unlocking write), and before it notifies the status
    callback, clears the online flags and signals the supplies.  When the
    work is cancelled the mode already reads OFF and the ceiling 0, while
    the online flags are still the old ones. *)
Theorem disable_charger_disarms_after_mode_off (w : world) :
  exists rc l rest,
    issued max77665_disable_charger w =
      (RegWrite MAX77665_CHG_CNFG_06 12 rc, disable_cleared (drv w)) :: l ++
      [(CancelDelayedWorkSync WDT_ACK_WORK, disable_cleared (drv w));
       (AlarmCancel, disable_work_cancelled (drv w))] ++ rest /\
    Forall (fun e => reg_access e.1 /\ e.2 = disable_cleared (drv w)) l /\
    Forall (fun e => ~ reg_access e.1 /\ ~ wdt_disarm e.1 /\
                     wdt_ack_work e.2 = None /\ wdt_alarm e.2 = None) rest /\
    mode (disable_cleared (drv w)) = OFF /\
    max_current_mA (disable_cleared (drv w)) = 0 /\
    ac_online (disable_cleared (drv w)) = ac_online (drv w) /\
    usb_online (disable_cleared (drv w)) = usb_online (drv w).
Proof.
  destruct (disable_charger_spec w) as (Hd & rc & l & Hl & Hf).
  apply logs_issued in Hl.
  exists rc, l.
  exists ((if update_status (plat_data (drv w))
           then [(UpdateStatus 0, disable_disarmed (drv w))] else []) ++
          [(PowerSupplyChanged USB_SUPPLY, disable_final (drv w));
           (PowerSupplyChanged AC_SUPPLY, disable_final (drv w))]).
  split; [exact Hl|]. split; [exact Hf|].
  split; [|repeat split].
  assert (Hno : forall a, supply_changed_of a \/ a = UpdateStatus 0 ->
                          ~ reg_access a /\ ~ wdt_disarm a).
  { intros a [Ha| ->]; split.
    - intros [H|H]; destruct a; contradiction.
    - intros [H|H]; subst a; contradiction.
    - intros [[]|[]].
    - intros [H|H]; discriminate H. }
  apply Forall_app. split.
  - destruct (update_status (plat_data (drv w))); [|constructor].
    constructor; [|constructor]. simpl.
    destruct (Hno (UpdateStatus 0)) as [? ?]; [right; reflexivity|]. auto.
  - repeat constructor; simpl;
      match goal with
      | |- ~ _ => apply (Hno (PowerSupplyChanged _)); left; exact I
      end.
Qed.

(** C5: [max77665_enable_charger] puts the attached source in one class
    by cable name: the reverse-boost host (USB-Host: mode OTG, ceiling 0,
    no online flag), USB (500 mA, USB online), charge-downstream (1500 mA,
    USB online), generic AC (TA: 2000 mA, AC online), fast AC (2200 mA,
    AC online) or slow AC (500 mA, AC online), and on return the mode, the
    ceiling and the online flags are those of the class.  At most one
    online flag is set.  With no such cable attached the mode is the old
    one, the chip is as it was and no register is accessed. *)
Theorem enable_charger_classifies
    (edev : gmap string bool) (val : Z) (w : world) :
  let w' := run (max77665_enable_charger edev val) w in
  match classify edev with
  | Some k =>
      mode (drv w') = class_mode k /\
      max_current_mA (drv w') = class_ceiling k /\
      usb_online (drv w') = class_usb_online k /\
      ac_online (drv w') = class_ac_online k
  | None =>
      mode (drv w') = mode (drv w) /\
      hw w' = hw w /\
      Forall (fun e => ~ reg_access e.1)
             (issued (max77665_enable_charger edev val) w)
  end /\
  (usb_online (drv w') = 0 \/ ac_online (drv w') = 0).
Proof.
  cbv zeta.
  rewrite (run_eq _ _ _ (enable_charger_split edev val w)).
  rewrite (issued_eq _ _ _ (enable_charger_split edev val w)).
  unfold issued. rewrite run_bind.
  destruct (enable_charger_prefix w) as (Hd0 & Hh0 & Hk0).
  match type of Hd0 with drv ?x = _ => set (w0 := x) in * end.
  unfold classify, cable_attached. cbn [List.find cable_name].
  repeat match goal with
  | |- context [extcon_get_cable_state edev ?n =? 1] =>
      destruct (extcon_get_cable_state edev n =? 1)
  end.
  1-6: rewrite !run_bind, enable_charger_apply_drv;
       match goal with |- context [if ?b then _ else _] => destruct b end;
       cbn; rewrite Hd0; cbn; auto.
  destruct w0 as [h0 c0 k0]. simpl in Hd0, Hh0, Hk0. subst h0 c0 k0.
  unfold run, enable_charger_done, bind, get_charger, ret. cbn.
  rewrite drop_app_length.
  split; [|left; reflexivity].
  repeat split.
  destruct (update_status (plat_data (drv w))); repeat constructor.
  cbn. intros [[]|[]].
Qed.

End OrchestrationClaims.

(** * The status decoder *)

Section StatusDecoder.

Context {hdr : max77665_header} {bus : max77665_bus}.

(** One register read issues one action and hands back either the byte
    read or, after a failed transfer, what the variable held. *)
Lemma read_reg_spec reg value w :
  exists rc v,
    logs (max77665_read_reg reg value) w [(RegRead reg rc v, drv w)] /\
    result (max77665_read_reg reg value) w = (rc, if 0 >? rc then value else v) /\
    drv (run (max77665_read_reg reg value) w) = drv w /\
    0 <= v <= 255.
Proof.
  unfold logs, run, result, max77665_read_reg, bind, bus_read.
  destruct (max77665_read (hw w) reg) as [[rc data] h].
  exists rc, (CInt.to_u8 data).
  destruct (0 >? rc); simpl; repeat split; apply to_u8_range.
Qed.

(** The whole effect of [max77665_handle_charger_status]. *)
Lemma handle_charger_status_spec status val w :
  let c2 := if recalibration_wanted status
            then recalibration_scheduled (drv w) else drv w in
  let l2 := if recalibration_wanted status
            then [(ScheduleDelayedWork SET_MAX_CURRENT_WORK 100, drv w)]
            else [] in
  result (max77665_handle_charger_status status val) w = 0 /\
  exists l1,
    Forall (fun e => reg_read_of e.1 /\ e.2 = drv w) l1 /\
    if battery_not_ok status then
      exists rc v,
        logs (max77665_handle_charger_status status val) w
          (l1 ++ l2 ++ [(RegRead MAX77665_CHG_DTLS_01 rc v, c2)]) /\
        drv (run (max77665_handle_charger_status status val) w) =
          (if BAT_DTLS_MASK (if 0 >? rc then val else v) =? BAT_DTLS_OVERCURRENT
           then with_oc_count (CInt.to_uint (oc_count c2 + 1)) c2
           else c2)
    else
      logs (max77665_handle_charger_status status val) w (l1 ++ l2) /\
      drv (run (max77665_handle_charger_status status val) w) = c2.
Proof.
  cbv zeta. unfold max77665_handle_charger_status.
  split; [rewrite !result_bind; reflexivity|].
  destruct (quiet_display_charger_status status w) as (Hd1 & l1 & Hl1 & Hf1).
  exists l1. split; [exact Hf1|].
  fold (recalibration_wanted status). fold (battery_not_ok status).
  unfold logs in *. rewrite !run_bind.
  set (w1 := run (max77665_display_charger_status status) w) in *.
  set (w2 := run (if recalibration_wanted status
                  then schedule_delayed_work SET_MAX_CURRENT_WORK 100
                  else ret ()) w1).
  assert (H2 : drv w2 = (if recalibration_wanted status
                         then recalibration_scheduled (drv w) else drv w) /\
               klog w2 = klog w ++ l1 ++
                 (if recalibration_wanted status
                  then [(ScheduleDelayedWork SET_MAX_CURRENT_WORK 100, drv w)]
                  else [])).
  { unfold w2. destruct (recalibration_wanted status).
    - unfold schedule_delayed_work, recalibration_scheduled, run, bind, emit,
        set_charger. cbn. rewrite Hd1, Hl1, <- app_assoc.
      split; [|reflexivity].
      destruct (set_max_current_work (drv w)); reflexivity.
    - rewrite run_ret, app_nil_r. auto. }
  destruct H2 as [Hd2 Hk2].
  destruct (battery_not_ok status).
  - destruct (read_reg_spec MAX77665_CHG_DTLS_01 val w2)
      as (rc & v & Hl3 & Hr3 & Hd3 & _).
    exists rc, v. unfold logs in Hl3.
    rewrite run_ret, run_bind, Hr3.
    destruct (BAT_DTLS_MASK _ =? BAT_DTLS_OVERCURRENT).
    + rewrite run_set_charger. cbn [klog drv].
      rewrite Hl3, Hd3, Hk2, Hd2, <- !app_assoc. auto.
    + rewrite run_ret, Hl3, Hd3, Hk2, Hd2, <- !app_assoc. auto.
  - rewrite !run_ret. rewrite Hk2, Hd2. auto.
Qed.

(** C6, as the code has it.  When the charger-OK or the charging-input-OK
    bit is clear the recalibration work is handed to
    [schedule_delayed_work] with a delay of 100 ms and is pending on
    return; the handler itself only reads registers, so the calibration
    does not run inside it and the ceiling is untouched.  With the
    battery-OK bit set the overcurrent counter stays; with it clear the
    last thing the handler does is read the battery details, and when that
    read succeeds the counter goes up by one, modulo 2^32, exactly if the
    detail is the overcurrent code.  In every case the counter either
    stays or goes up by one modulo 2^32, so it does not decrease as long
    as it is below [UINT_MAX]. *)
Theorem handle_charger_status_effects (status val : Z) (w : world) :
  let h := max77665_handle_charger_status status val in
  let c := drv w in
  let c' := drv (run h w) in
  (recalibration_wanted status = true ->
     In (ScheduleDelayedWork SET_MAX_CURRENT_WORK 100) (map fst (issued h w)) /\
     set_max_current_work c' = Some (default 100 (set_max_current_work c))) /\
  Forall (fun e => reg_read_of e.1 \/
                   e.1 = ScheduleDelayedWork SET_MAX_CURRENT_WORK 100)
         (issued h w) /\
  max_current_mA c' = max_current_mA c /\
  (battery_not_ok status = false -> oc_count c' = oc_count c) /\
  (battery_not_ok status = true ->
     exists rc v stamp,
       last (issued h w) = Some (RegRead MAX77665_CHG_DTLS_01 rc v, stamp) /\
       (0 <= rc ->
        oc_count c' = if BAT_DTLS_MASK v =? BAT_DTLS_OVERCURRENT
                      then CInt.to_uint (oc_count c + 1) else oc_count c)) /\
  (oc_count c' = oc_count c \/ oc_count c' = CInt.to_uint (oc_count c + 1)) /\
  (0 <= oc_count c < CInt.UINT_MAX -> oc_count c <= oc_count c').
Proof.
  cbv zeta.
  destruct (handle_charger_status_spec status val w) as (_ & l1 & Hf1 & H).
  cbv zeta in H.
  set (h := max77665_handle_charger_status status val) in *.
  assert (Hf1' : Forall (fun e => reg_read_of e.1 \/
                    e.1 = ScheduleDelayedWork SET_MAX_CURRENT_WORK 100) l1).
  { eapply Forall_impl; [exact Hf1|]. intros e [He _]. left. exact He. }
  assert (Hsched : forall c, oc_count (recalibration_scheduled c) = oc_count c /\
                     max_current_mA (recalibration_scheduled c) = max_current_mA c /\
                     set_max_current_work (recalibration_scheduled c) =
                       Some (default 100 (set_max_current_work c))).
  { intros c. unfold recalibration_scheduled.
    destruct (set_max_current_work c) eqn:E; simpl; rewrite ?E; auto. }
  assert (Hwrap : forall n, 0 <= n < CInt.UINT_MAX -> CInt.to_uint (n + 1) = n + 1).
  { intros n Hn. unfold CInt.to_uint, CInt.UINT_MAX in *.
    apply Z.mod_small. lia. }
  destruct (battery_not_ok status).
  - destruct H as (rc & v & Hl & Hd). apply logs_issued in Hl.
    rewrite Hl, Hd. clear Hl Hd.
    assert (Hrc : 0 <= rc -> (0 >? rc) = false).
    { intros Hrc. rewrite Z.gtb_ltb. apply Z.ltb_ge. exact Hrc. }
    destruct (recalibration_wanted status);
      destruct (BAT_DTLS_MASK (if 0 >? rc then val else v) =? BAT_DTLS_OVERCURRENT)
        eqn:Eoc;
      cbn [oc_count max_current_mA set_max_current_work with_oc_count];
      destruct (Hsched (drv w)) as (Ho & Hm & Hs); rewrite ?Ho, ?Hm, ?Hs;
      split_and!;
      first
        [ solve [intros Hw; discriminate Hw]
        | solve [intros _; split; [|reflexivity];
                 rewrite !map_app, !in_app_iff; right; left; left; reflexivity]
        | solve [repeat (apply Forall_app; split); try exact Hf1';
                 repeat constructor; simpl; auto]
        | solve [intros _; exists rc, v; eexists;
                 split; [rewrite ?app_assoc; apply last_snoc|];
                 intros Hge; rewrite (Hrc Hge) in Eoc; rewrite Eoc; reflexivity]
        | solve [auto]
        | solve [intros Hn; rewrite ?(Hwrap _ Hn); lia] ].
  - destruct H as (Hl & Hd). apply logs_issued in Hl.
    rewrite Hl, Hd. clear Hl Hd.
    destruct (recalibration_wanted status);
      destruct (Hsched (drv w)) as (Ho & Hm & Hs); rewrite ?Ho, ?Hm, ?Hs;
      split_and!;
      first
        [ solve [intros Hw; discriminate Hw]
        | solve [intros _; split; [|reflexivity];
                 rewrite !map_app, !in_app_iff; right; left; reflexivity]
        | solve [repeat (apply Forall_app; split); try exact Hf1';
                 repeat constructor; simpl; auto]
        | solve [auto]
        | solve [intros Hn; lia] ].
Qed.

End StatusDecoder.

(** * The settled cable event *)

Section CableEvent.

Context {hdr : max77665_header} {bus : max77665_bus}.

(** C7, as the code has it.  [charger_extcon_handle_notifier] first reads
    the charger details.  When that read fails, or the details say that
    charging is on, nothing more happens, for an attach as for a detach:
    the charger fields are as before and the read is the only action.
    When the details say that charging is off, a settled detach (event 0)
    goes on with the disable path and a settled attach (event 1) with the
    enable path, from the state the read left; any other event value does
    nothing more. *)
Theorem extcon_notifier_acts_when_charging_off
    (event : Z) (edev : gmap string bool) (val : Z) (w : world) :
  let rd := max77665_read_reg MAX77665_CHG_DTLS_01 0 in
  let w1 := run rd w in
  let h := charger_extcon_handle_notifier event edev val in
  exists rc v,
    issued rd w = [(RegRead MAX77665_CHG_DTLS_01 rc v, drv w)] /\
    drv w1 = drv w /\
    (rc < 0 \/ charging_is_on v = true \/ (event <> 0 /\ event <> 1) ->
       run h w = w1 /\ drv (run h w) = drv w /\ issued h w = issued rd w) /\
    (0 <= rc -> charging_is_on v = false -> event = 0 ->
       run h w = run max77665_disable_charger w1) /\
    (0 <= rc -> charging_is_on v = false -> event = 1 ->
       run h w = run (max77665_enable_charger edev val) w1).
Proof.
  cbv zeta.
  destruct (read_reg_spec MAX77665_CHG_DTLS_01 0 w)
    as (rc & v & Hl & Hr & Hd & _).
  exists rc, v.
  pose proof (logs_issued _ _ _ Hl) as Hi.
  assert (Hrun : run (charger_extcon_handle_notifier event edev val) w =
    let w1 := run (max77665_read_reg MAX77665_CHG_DTLS_01 0) w in
    if 0 >? rc then w1
    else if (event =? 0) && negb (charging_is_on v)
         then run max77665_disable_charger w1
    else if (event =? 1) && negb (charging_is_on v)
         then run (max77665_enable_charger edev val) w1
    else w1).
  { unfold charger_extcon_handle_notifier. rewrite run_bind, Hr. cbv zeta.
    destruct (0 >? rc) eqn:Erc; [reflexivity|].
    destruct ((event =? 0) && negb (charging_is_on v));
      [rewrite run_bind; reflexivity|].
    destruct ((event =? 1) && negb (charging_is_on v));
      [rewrite run_bind; reflexivity|].
    reflexivity. }
  cbv zeta in Hrun.
  split; [exact Hi|]. split; [exact Hd|].
  split; [|split].
  - intros Hcase.
    assert (Hw1 : run (charger_extcon_handle_notifier event edev val) w =
                  run (max77665_read_reg MAX77665_CHG_DTLS_01 0) w).
    { rewrite Hrun. destruct (0 >? rc) eqn:Erc; [reflexivity|].
      destruct Hcase as [Hneg | [Hon | [H0 H1]]].
      - rewrite Z.gtb_ltb in Erc. apply Z.ltb_ge in Erc. lia.
      - rewrite Hon. simpl. rewrite !andb_false_r. reflexivity.
      - apply Z.eqb_neq in H0, H1. rewrite H0, H1. reflexivity. }
    split; [exact Hw1|]. split; [rewrite Hw1; exact Hd|].
    unfold issued. rewrite Hw1. reflexivity.
  - intros Hrc Hoff ->. rewrite Hrun.
    assert (Erc : (0 >? rc) = false)
      by (rewrite Z.gtb_ltb; apply Z.ltb_ge; exact Hrc).
    rewrite Erc, Hoff. reflexivity.
  - intros Hrc Hoff ->. rewrite Hrun.
    assert (Erc : (0 >? rc) = false)
      by (rewrite Z.gtb_ltb; apply Z.ltb_ge; exact Hrc).
    rewrite Erc, Hoff. reflexivity.
Qed.

End CableEvent.

(** * The calibration engine *)

Section Calibration.

Context {hdr : max77665_header} {bus : max77665_bus}.

Lemma set_max_input_current_result mA w :
  result (max77665_set_max_input_current mA) w = 0.
Proof.
  unfold max77665_set_max_input_current. rewrite result_bind. reflexivity.
Qed.

Lemma quiet_probe mid : quiet probe_action (probe mid).
Proof.
  unfold probe. apply quiet_bind.
  - eapply quiet_weaken; [|apply quiet_set_max_input_current].
    intros a Ha. left. right. exact Ha.
  - intros _. apply quiet_bind.
    + apply quiet_msleep. right. reflexivity.
    + intros _. eapply quiet_weaken; [|apply quiet_check_charging_ok].
      intros a Ha. left. left. exact Ha.
Qed.

(** One pass through the body of the [do ... while]. *)
Lemma search_step fuel min max w :
  ideal_input_current_search (S fuel) min max w =
    let mid := CInt.div (CInt.add min max) 2 in
    let ok := result (probe mid) w in
    let w' := run (probe mid) w in
    let min' := if ok then mid else min in
    let max' := if ok then max else mid in
    if CURRENT_STEP_mA <=? CInt.sub max' min'
    then ideal_input_current_search fuel min' max' w'
    else (Some 0, World (hw w') (with_max_current_mA mid (drv w')) (klog w')).
Proof.
  cbn [ideal_input_current_search]. cbv zeta.
  unfold probe, run, result, bind.
  pose proof (set_max_input_current_result (CInt.div (CInt.add min max) 2) w) as H0.
  unfold result in H0.
  destruct (max77665_set_max_input_current _ w) as [r w1].
  simpl in H0. subst r. change (0 <? 0) with false. cbv beta iota.
  destruct (msleep 50 w1) as [[] w2].
  destruct (max77665_check_charging_ok w2) as [ok w3]. simpl.
  destruct (CURRENT_STEP_mA <=? _); reflexivity.
Qed.

(** The same for the loop of the specification, when its test passes. *)
Lemma while_step fuel min max mid w :
  (CURRENT_STEP_mA <=? CInt.sub max min) = true ->
  calibrate_while (S fuel) min max mid w =
    let m := CInt.div (CInt.add min max) 2 in
    let ok := result (probe m) w in
    let w' := run (probe m) w in
    calibrate_while fuel (if ok then m else min) (if ok then max else m)
      (Some m) w'.
Proof.
  intros Ht. cbn [calibrate_while]. rewrite Ht. cbv zeta.
  unfold probe, run, result, bind.
  pose proof (set_max_input_current_result (CInt.div (CInt.add min max) 2) w) as H0.
  unfold result in H0.
  destruct (max77665_set_max_input_current _ w) as [r w1].
  simpl in H0. subst r. change (0 <? 0) with false. cbv beta iota.
  destruct (msleep 50 w1) as [[] w2].
  destruct (max77665_check_charging_ok w2) as [ok w3]. reflexivity.
Qed.

(** Past its first test, the loop of the specification is the driver's
    loop entered at the test. *)
Lemma while_is_search fuel : forall min max mid w,
  calibrate_while fuel min max (Some mid) w =
    if CURRENT_STEP_mA <=? CInt.sub max min
    then ideal_input_current_search fuel min max w
    else (Some 0, World (hw w) (with_max_current_mA mid (drv w)) (klog w)).
Proof.
  induction fuel as [|fuel IH]; intros min max mid w.
  - cbn [calibrate_while ideal_input_current_search].
    destruct (CURRENT_STEP_mA <=? CInt.sub max min); reflexivity.
  - destruct (CURRENT_STEP_mA <=? CInt.sub max min) eqn:Ht.
    + rewrite (while_step _ _ _ _ _ Ht), search_step. cbv zeta.
      apply IH.
    + cbn [calibrate_while]. rewrite Ht. reflexivity.
Qed.

Lemma while_from_start fuel min max w :
  (CURRENT_STEP_mA <=? CInt.sub max min) = true ->
  calibrate_while fuel min max None w =
  ideal_input_current_search fuel min max w.
Proof.
  intros Ht. destruct fuel as [|fuel].
  - cbn [calibrate_while ideal_input_current_search]. rewrite Ht. reflexivity.
  - rewrite (while_step _ _ _ _ _ Ht), search_step. cbv zeta.
    apply while_is_search.
Qed.

Lemma set_ideal_input_current_unfold fuel w :
  max77665_set_ideal_input_current fuel w =
  ideal_input_current_search fuel 100 (max_current_mA (drv w)) w.
Proof. reflexivity. Qed.

Lemma calibrate_as_specified_unfold fuel w :
  calibrate_as_specified fuel w =
  calibrate_while fuel 100 (max_current_mA (drv w)) None w.
Proof. reflexivity. Qed.

(** ** Arithmetic of the window, free of wrap-around *)

Lemma int_add_exact a b : no_wrap a -> no_wrap b -> CInt.add a b = a + b.
Proof.
  unfold no_wrap, CInt.add. intros Ha Hb. apply to_int_id.
  unfold CInt.in_int, CInt.INT_MIN, CInt.INT_MAX. lia.
Qed.

Lemma int_sub_exact a b : no_wrap a -> no_wrap b -> CInt.sub a b = a - b.
Proof.
  unfold no_wrap, CInt.sub. intros Ha Hb. apply to_int_id.
  unfold CInt.in_int, CInt.INT_MIN, CInt.INT_MAX. lia.
Qed.

Lemma int_half_exact a : CInt.in_int a -> CInt.div a 2 = Z.quot a 2.
Proof.
  unfold CInt.div, CInt.in_int, CInt.INT_MIN, CInt.INT_MAX. intros Ha.
  apply to_int_id. unfold CInt.in_int, CInt.INT_MIN, CInt.INT_MAX.
  Z.to_euclidean_division_equations. lia.
Qed.

Lemma midpoint_exact min max :
  no_wrap min -> no_wrap max ->
  CInt.div (CInt.add min max) 2 = Z.quot (min + max) 2.
Proof.
  intros Hmin Hmax. rewrite int_add_exact by assumption.
  apply int_half_exact.
  unfold no_wrap, CInt.in_int, CInt.INT_MIN, CInt.INT_MAX in *. lia.
Qed.

(** The midpoint of a window above the floor lies in the window and
    halves it. *)
Lemma midpoint_in_window min max :
  100 <= min <= max -> max <= 1073741823 ->
  let mid := CInt.div (CInt.add min max) 2 in
  min <= mid <= max /\ 2 * mid <= min + max <= 2 * mid + 1.
Proof.
  intros Hw Hmax. cbv zeta.
  rewrite midpoint_exact by (unfold no_wrap; lia).
  Z.to_euclidean_division_equations. lia.
Qed.

(** From a window at most [2^n] wide above the floor, [n + 1] passes leave
    the loop, with a ceiling inside the window and the other charger
    fields as they were. *)
Lemma search_converges (n : nat) : forall (fuel : nat) min max w,
  (n < fuel)%nat ->
  2 <= CURRENT_STEP_mA ->
  100 <= min <= max -> max <= 1073741823 ->
  max - min <= 2 ^ Z.of_nat n ->
  let w' := run (ideal_input_current_search fuel min max) w in
  result (ideal_input_current_search fuel min max) w = Some 0 /\
  min <= max_current_mA (drv w') <= max /\
  drv w' = with_max_current_mA (max_current_mA (drv w')) (drv w).
Proof.
  induction n as [|n IH]; intros fuel min max w Hfuel Hstep Hw Hmax Hgap;
    (destruct fuel as [|fuel]; [lia|]);
    cbv zeta; unfold result, run; rewrite search_step; cbv zeta;
    destruct (midpoint_in_window min max Hw Hmax) as [Hmid Hhalf];
    cbv zeta in Hmid, Hhalf;
    set (mid := CInt.div (CInt.add min max) 2) in *;
    pose proof (quiet_drv _ _ w (quiet_probe mid)) as Hdrv;
    set (w' := run (probe mid) w) in *;
    destruct (result (probe mid) w).
  - rewrite int_sub_exact by (unfold no_wrap; lia).
    destruct (CURRENT_STEP_mA <=? max - mid) eqn:Ht.
    + apply Z.leb_le in Ht. change (2 ^ Z.of_nat 0) with 1 in Hgap. lia.
    + simpl. rewrite Hdrv. split_and!; [reflexivity | lia | lia | reflexivity].
  - rewrite int_sub_exact by (unfold no_wrap; lia).
    destruct (CURRENT_STEP_mA <=? mid - min) eqn:Ht.
    + apply Z.leb_le in Ht. change (2 ^ Z.of_nat 0) with 1 in Hgap. lia.
    + simpl. rewrite Hdrv. split_and!; [reflexivity | lia | lia | reflexivity].
  - rewrite int_sub_exact by (unfold no_wrap; lia).
    rewrite Nat2Z.inj_succ, Z.pow_succ_r in Hgap by lia.
    destruct (CURRENT_STEP_mA <=? max - mid) eqn:Ht.
    + destruct (IH fuel mid max w') as (Hr & Hb & Hf); try lia.
      cbv zeta in Hb, Hf. unfold result, run in Hr, Hb, Hf.
      rewrite Hdrv in Hf. split_and!; [exact Hr | lia | lia | exact Hf].
    + simpl. rewrite Hdrv. split_and!; [reflexivity | lia | lia | reflexivity].
  - rewrite int_sub_exact by (unfold no_wrap; lia).
    rewrite Nat2Z.inj_succ, Z.pow_succ_r in Hgap by lia.
    destruct (CURRENT_STEP_mA <=? mid - min) eqn:Ht.
    + destruct (IH fuel min mid w') as (Hr & Hb & Hf); try lia.
      cbv zeta in Hb, Hf. unfold result, run in Hr, Hb, Hf.
      rewrite Hdrv in Hf. split_and!; [exact Hr | lia | lia | exact Hf].
    + simpl. rewrite Hdrv. split_and!; [reflexivity | lia | lia | reflexivity].
Qed.

(** C1, as the code has it: with a current step of at least 2 and a
    ceiling [C] of at least 100 at call time (and at most 2^30 - 1, so
    that [min + max] does not wrap), [max77665_set_ideal_input_current]
    leaves its loop within 31 passes, returns 0 and stores a ceiling in
    [[100, C]]; the other charger fields are as they were. *)
Theorem calibration_stays_in_window (fuel : nat) (w : world) :
  2 <= CURRENT_STEP_mA ->
  100 <= max_current_mA (drv w) <= 1073741823 ->
  (31 <= fuel)%nat ->
  let w' := run (max77665_set_ideal_input_current fuel) w in
  result (max77665_set_ideal_input_current fuel) w = Some 0 /\
  100 <= max_current_mA (drv w') <= max_current_mA (drv w) /\
  drv w' = with_max_current_mA (max_current_mA (drv w')) (drv w).
Proof.
  intros Hstep HC Hfuel.
  cbv zeta. unfold result, run. rewrite set_ideal_input_current_unfold.
  apply (search_converges 30); lia.
Qed.

(** C2, as the code has it: the search is a [do ... while].  When the
    window [[100, C]] is at least one current step wide at call time, the
    run is the loop of the specification: test [(max - min) >=
    CURRENT_STEP_mA], probe [mid = (min + max) / 2], raise [min] or lower
    [max] to [mid], store the last [mid] on leaving.  When the window is
    narrower (with a positive step and a ceiling that does not wrap), the
    body still runs once: one probe at [(100 + C) / 2], which is then
    stored. *)
Theorem calibration_is_do_while (fuel : nat) (w : world) :
  let C := max_current_mA (drv w) in
  ((CURRENT_STEP_mA <=? CInt.sub C 100) = true ->
     max77665_set_ideal_input_current fuel w = calibrate_as_specified fuel w) /\
  ((CURRENT_STEP_mA <=? CInt.sub C 100) = false ->
     0 < CURRENT_STEP_mA -> no_wrap C ->
     max77665_set_ideal_input_current (S fuel) w = single_probe w).
Proof.
  cbv zeta. split.
  - intros Ht.
    rewrite set_ideal_input_current_unfold, calibrate_as_specified_unfold.
    symmetry. apply while_from_start. exact Ht.
  - intros Ht Hstep HC.
    rewrite set_ideal_input_current_unfold, search_step. cbv zeta.
    assert (H100 : no_wrap 100) by (unfold no_wrap; lia).
    rewrite int_sub_exact in Ht by assumption. apply Z.leb_gt in Ht.
    pose proof (midpoint_exact 100 _ H100 HC) as Hmid.
    set (mid := CInt.div (CInt.add 100 (max_current_mA (drv w))) 2) in *.
    assert (Hb : (100 <= max_current_mA (drv w) -> 100 <= mid <= max_current_mA (drv w)) /\
                 (max_current_mA (drv w) < 100 -> max_current_mA (drv w) <= mid <= 100)).
    { rewrite Hmid. unfold no_wrap in HC.
      Z.to_euclidean_division_equations. lia. }
    assert (Hleave : forall ok : bool,
      (CURRENT_STEP_mA <=?
         CInt.sub (if ok then max_current_mA (drv w) else mid)
                  (if ok then mid else 100)) = false).
    { intros ok. apply Z.leb_gt. unfold no_wrap in *.
      destruct ok; rewrite int_sub_exact by (unfold no_wrap; lia); lia. }
    rewrite Hleave.
    unfold single_probe, bind, get_charger, set_charger, ret, run, result.
    fold mid. destruct (probe mid w) as [ok w']. reflexivity.
Qed.

End Calibration.

(** * The driver on the simulated chip *)

Section Evaluation.

Import Sample.

(** C1, a run on the weak adapter: 31 passes are enough, the call returns
    0 and the stored ceiling is within [[100, 2000]]. *)
Lemma calibration_stays_in_window_weak_adapter :
  (2 <= CURRENT_STEP_mA /\
   100 <= max_current_mA (drv weak_adapter) <= 1073741823 /\
   (31 <= 31)%nat) /\
  let w' := run (max77665_set_ideal_input_current 31) weak_adapter in
  result (max77665_set_ideal_input_current 31) weak_adapter = Some 0 /\
  100 <= max_current_mA (drv w') <= max_current_mA (drv weak_adapter) /\
  drv w' = with_max_current_mA (max_current_mA (drv w')) (drv weak_adapter).
Proof.
  assert (H1 : 2 <= CURRENT_STEP_mA) by (vm_compute; discriminate).
  assert (H2 : 100 <= max_current_mA (drv weak_adapter) <= 1073741823)
    by (vm_compute; split; discriminate).
  assert (H3 : (31 <= 31)%nat) by lia.
  split; [auto|].
  exact (calibration_stays_in_window 31 weak_adapter H1 H2 H3).
Defined.

(** The scenario of a source that collapses above 300 mA under a
    ceiling of 2000 mA: the calibration settles on 322 mA. *)
Lemma calibration_on_weak_adapter :
  max_current_mA
    (drv (run (max77665_set_ideal_input_current 31) weak_adapter)) = 322.
Proof. vm_compute. reflexivity. Qed.

(** The scenario of a USB cable attached to an idle charger: USB online,
    mode CHARGER, ceiling 500 mA, the watchdog alarm armed at half its
    period, and the status callback told 500. *)
Lemma enable_charger_on_usb :
  let w := boot (chip_on 3000) (charger_at plat OFF 0) in
  let w' := run (max77665_enable_charger {["USB" := true]} 0) w in
  classify {["USB" := true]} = Some UsbSource /\
  mode (drv w') = CHARGER /\
  max_current_mA (drv w') = 500 /\
  usb_online (drv w') = 1 /\
  ac_online (drv w') = 0 /\
  wdt_alarm (drv w') = Some 40 /\
  last (map fst (klog w')) = Some (PowerSupplyChanged USB_SUPPLY) /\
  In (UpdateStatus 500) (map fst (klog w')).
Proof.
  vm_compute. split_and!; try reflexivity.
  do 9 right. left. reflexivity.
Qed.

(** The mode is stored even when no register write gets through: on the
    chip with the write fault the change to OTG returns the transport's
    error and the mode reads OTG. *)
Lemma set_charger_mode_on_write_fault :
  result (max77665_set_charger_mode OTG) sagging_usb_write_fault = (-5) /\
  mode (drv sagging_usb_write_fault) = CHARGER /\
  mode (drv (run (max77665_set_charger_mode OTG) sagging_usb_write_fault)) = OTG.
Proof. vm_compute. auto. Qed.

(** C1 fails as stated.  Started with ceiling 0 (the charger switched
    off), the calibration stores 50, which is not in [[100, 0]]; started
    with ceiling 500 on the sagging USB source it stores 462, which is in
    [[100, 500]] but not a multiple of the current step 20. *)
Lemma calibration_leaves_window_and_step_grid :
  let cal := max77665_set_ideal_input_current 31 in
  (result cal switched_off = Some 0 /\
   max_current_mA (drv switched_off) = 0 /\
   max_current_mA (drv (run cal switched_off)) = 50 /\
   ~ (100 <= max_current_mA (drv (run cal switched_off))
          <= max_current_mA (drv switched_off))) /\
  (result cal sagging_usb = Some 0 /\
   max_current_mA (drv sagging_usb) = 500 /\
   max_current_mA (drv (run cal sagging_usb)) = 462 /\
   max_current_mA (drv (run cal sagging_usb)) mod CURRENT_STEP_mA <> 0).
Proof.
  vm_compute. repeat split; try reflexivity.
  - intros [H _]. apply H. reflexivity.
  - discriminate.
Qed.

(** C2, both cases on the simulated chip: from ceiling 2000 the run is the
    loop of the specification; from ceiling 0 it is a single probe. *)
Lemma calibration_is_do_while_on_chip :
  max77665_set_ideal_input_current 31 weak_adapter =
    calibrate_as_specified 31 weak_adapter /\
  max77665_set_ideal_input_current 1 switched_off = single_probe switched_off.
Proof.
  split.
  - apply (proj1 (calibration_is_do_while 31 weak_adapter)).
    vm_compute. reflexivity.
  - apply (proj2 (calibration_is_do_while 0 switched_off)).
    + vm_compute. reflexivity.
    + vm_compute. reflexivity.
    + vm_compute. split; discriminate.
Defined.

(** C2 fails as stated.  With ceiling 0 the window is narrower than one
    step from the start ([0 - 100 < 20]), so the loop of the specification
    does not iterate: it issues nothing and leaves the ceiling at 0.  The
    driver probes 50 mA all the same and stores 50. *)
Lemma calibration_probes_before_testing :
  let C := max_current_mA (drv switched_off) in
  (CURRENT_STEP_mA <=? CInt.sub C 100) = false /\
  map fst (issued (calibrate_as_specified 31) switched_off) = [] /\
  max_current_mA (drv (run (calibrate_as_specified 31) switched_off)) = 0 /\
  map fst (issued (max77665_set_ideal_input_current 31) switched_off) =
    [RegWrite MAX77665_CHG_CNFG_09 2 0; Msleep 50;
     RegRead MAX77665_CHG_DTLS_00 0 96; RegRead MAX77665_CHG_DTLS_02 0 0] /\
  max_current_mA (drv (run (max77665_set_ideal_input_current 31) switched_off))
    = 50 /\
  run (max77665_set_ideal_input_current 31) switched_off <>
    run (calibrate_as_specified 31) switched_off.
Proof.
  vm_compute. repeat split; try reflexivity.
  intros H. discriminate H.
Qed.

(** C3, the defect at work.  Every write of the ceiling register fails on
    the transport (status -5), the register stays at 500 mA and every
    probe is judged not OK.  The calibration neither stops at the first
    failure nor returns an error: it makes five probes, returns 0 and
    stores 112, a midpoint that never reached the chip, in place of the
    500 it was called with. *)
Lemma calibration_ignores_write_failure :
  let cal := max77665_set_ideal_input_current 31 in
  Forall (fun a => match a with RegWrite _ _ rc => rc < 0 | _ => True end)
         (map fst (issued cal sagging_usb_write_fault)) /\
  length (List.filter
            (fun a => match a with RegWrite _ _ _ => true | _ => false end)
            (map fst (issued cal sagging_usb_write_fault))) = 5%nat /\
  result cal sagging_usb_write_fault = Some 0 /\
  max_current_mA (drv sagging_usb_write_fault) = 500 /\
  max_current_mA (drv (run cal sagging_usb_write_fault)) = 112.
Proof.
  vm_compute. repeat split; try reflexivity.
  repeat constructor.
Qed.

(** C4 fails as stated on a platform that sets no status callback: the
    disable path then tells nobody the ceiling. *)
Lemma disable_without_callback_notifies_nobody :
  update_status (plat_data (drv without_callback)) = false /\
  ~ In (UpdateStatus 0)
       (map fst (issued max77665_disable_charger without_callback)).
Proof.
  split; [reflexivity|].
  vm_compute. intros H.
  repeat (destruct H as [H|H]; [discriminate H|]). exact H.
Qed.

(** C6, on the simulated chip: a snapshot with every OK bit clear and an
    overcurrent detail schedules the recalibration and counts one
    overcurrent. *)
Lemma handle_charger_status_counts_overcurrent :
  let w := boot (chip_reporting 96) charging_from_usb in
  let h := max77665_handle_charger_status 0 0 in
  recalibration_wanted 0 = true /\
  battery_not_ok 0 = true /\
  set_max_current_work (drv (run h w)) = Some 100 /\
  oc_count (drv w) = 0 /\
  oc_count (drv (run h w)) = 1.
Proof.
  pose proof (handle_charger_status_effects 0 0
                (boot (chip_reporting 96) charging_from_usb)) as H.
  cbv zeta in H. destruct H as (H1 & _ & _ & _ & H5 & _).
  cbv zeta. split; [reflexivity|]. split; [reflexivity|].
  destruct (H1 eq_refl) as [_ Hs].
  destruct (H5 eq_refl) as (rc & v & stamp & Hlast & Hoc).
  split; [exact Hs|]. split; [reflexivity|].
  vm_compute in Hlast. injection Hlast as <- <- _.
  exact (Hoc ltac:(lia)).
Defined.

(** C6 fails as stated at the top of the counter's range: one more
    overcurrent takes it from 4294967295 to 0. *)
Lemma oc_count_wraps_to_zero :
  let h := max77665_handle_charger_status 0 0 in
  oc_count (drv counter_at_max) = 4294967295 /\
  oc_count (drv (run h counter_at_max)) = 0 /\
  ~ (oc_count (drv counter_at_max) <= oc_count (drv (run h counter_at_max))).
Proof.
  vm_compute. repeat split; try reflexivity.
  intros H. apply H. reflexivity.
Qed.

(** C7, on the simulated chip: a settled detach while the chip reports
    the charger off runs the disable path; while it reports charging,
    nothing is done. *)
Lemma extcon_notifier_on_chip :
  let h := charger_extcon_handle_notifier 0 ∅ 0 in
  let rd := max77665_read_reg MAX77665_CHG_DTLS_01 0 in
  run h chip_says_off = run max77665_disable_charger (run rd chip_says_off) /\
  run h chip_says_on = run rd chip_says_on.
Proof.
  cbv zeta. split.
  - destruct (extcon_notifier_acts_when_charging_off 0 ∅ 0 chip_says_off)
      as (rc & v & Hi & _ & _ & Hdis & _).
    vm_compute in Hi. injection Hi as <- <-.
    apply Hdis; [lia | reflexivity | reflexivity].
  - destruct (extcon_notifier_acts_when_charging_off 0 ∅ 0 chip_says_on)
      as (rc & v & Hi & _ & Hnop & _).
    vm_compute in Hi. injection Hi as <- <-.
    apply Hnop. right. left. reflexivity.
Defined.

(** C7 fails as stated for a detach.  When the chip already reports the
    charger off, the settled detach is not dropped: the disable path runs,
    with its register writes, and the mode goes from CHARGER to OFF.  When
    the chip still reports charging, which is the state out of step with a
    detach, the event is dropped after the read. *)
Lemma detach_acts_when_already_off :
  let h := charger_extcon_handle_notifier 0 ∅ 0 in
  (charging_is_on 8 = false /\
   mode (drv chip_says_off) = CHARGER /\
   mode (drv (run h chip_says_off)) = OFF /\
   length (issued h chip_says_off) = 12%nat /\
   drv (run h chip_says_off) <> drv chip_says_off) /\
  (charging_is_on 1 = true /\
   map fst (issued h chip_says_on) = [RegRead MAX77665_CHG_DTLS_01 0 1] /\
   drv (run h chip_says_on) = drv chip_says_on).
Proof.
  vm_compute. repeat split; try reflexivity.
  intros H. discriminate H.
Qed.

(** C9 fails as stated: the first thing the disable path does to the
    outside is the register write that unlocks the configuration
    registers; the watchdog is disarmed by its seventh and eighth
    actions, after the six register accesses of the mode change. *)
Lemma disable_starts_with_register_write :
  let l := map fst (issued max77665_disable_charger chip_says_off) in
  head l = Some (RegWrite MAX77665_CHG_CNFG_06 12 0) /\
  ~ wdt_disarm (RegWrite MAX77665_CHG_CNFG_06 12 0) /\
  l !! 6%nat = Some (CancelDelayedWorkSync WDT_ACK_WORK) /\
  l !! 7%nat = Some AlarmCancel /\
  Forall reg_access (take 6 l).
Proof.
  cbv zeta. split_and!.
  - vm_compute. reflexivity.
  - intros [H|H]; discriminate H.
  - vm_compute. reflexivity.
  - vm_compute. reflexivity.
  - vm_compute.
    repeat (constructor; [first [left; exact I | right; exact I]|]).
    constructor.
Qed.

End Evaluation.

(** * The lookup tables *)

Section Tables.

Context {hdr : max77665_header}.

Lemma convert_to_reg_scan_spec : forall tbl val i0 a rest,
  tbl = a :: rest -> a <= val ->
  exists k : nat,
    convert_to_reg_scan tbl val i0 = i0 + Z.of_nat k /\
    (k < length tbl)%nat /\
    nth k tbl 0 <= val /\
    ((S k < length tbl)%nat -> val < nth (S k) tbl 0).
Proof.
  induction tbl as [|x tbl IH]; intros val i0 a rest Heq Ha; [discriminate|].
  injection Heq as -> ->.
  destruct rest as [|b rest'].
  - exists 0%nat. simpl. split_and!; [lia | lia | exact Ha | lia].
  - change (convert_to_reg_scan (a :: b :: rest') val i0)
      with (if (a <=? val) && (val <? b) then i0
            else convert_to_reg_scan (b :: rest') val (i0 + 1)).
    destruct ((a <=? val) && (val <? b)) eqn:Hc.
    + apply andb_true_iff in Hc. destruct Hc as [_ Hb]. apply Z.ltb_lt in Hb.
      exists 0%nat. simpl. split_and!; [lia | lia | exact Ha | intros _; exact Hb].
    + assert (Hb : b <= val).
      { apply andb_false_iff in Hc. destruct Hc as [Hc|Hc].
        - apply Z.leb_gt in Hc. lia.
        - apply Z.ltb_ge in Hc. exact Hc. }
      destruct (IH val (i0 + 1) b rest' eq_refl Hb) as (k & Hk & Hlen & Hle & Hlt).
      exists (S k). rewrite Hk. cbn [length nth] in *.
      split_and!; [lia | lia | exact Hle | intros H; apply Hlt; lia].
Qed.

Lemma increasingb_nth : forall tbl,
  increasingb tbl = true ->
  forall i j : nat, (i < j)%nat -> (j < length tbl)%nat ->
    nth i tbl 0 < nth j tbl 0.
Proof.
  induction tbl as [|a tbl IH]; intros Hinc i j Hij Hj; [simpl in Hj; lia|].
  destruct tbl as [|b rest]; [simpl in Hj; lia|].
  cbn [increasingb] in Hinc. apply andb_true_iff in Hinc.
  destruct Hinc as [Hab Hrest]. apply Z.ltb_lt in Hab.
  destruct j as [|j]; [lia|]. destruct i as [|i].
  - cbn [nth]. destruct j as [|j]; [exact Hab|].
    assert (H := IH Hrest 0%nat (S j) ltac:(lia) ltac:(simpl in *; lia)).
    cbn [nth] in H |- *. lia.
  - cbn [nth]. apply (IH Hrest); simpl in *; lia.
Qed.

(** What [convert_to_reg] returns, in range and out of range. *)
Lemma convert_to_reg_spec (tbl : list Z) (val : Z) :
  tbl <> [] ->
  0 <= val <= CInt.UINT_MAX ->
  let last := Z.of_nat (length tbl) - 1 in
  let r := convert_to_reg tbl val in
  (val < tbl_at tbl 0 \/ tbl_at tbl last < val -> r = - EINVAL) /\
  (tbl_at tbl 0 <= val <= tbl_at tbl last ->
     0 <= r <= last /\
     tbl_at tbl r <= val /\
     (r < last -> val < tbl_at tbl (r + 1))).
Proof.
  intros Hne Hval. cbv zeta. unfold convert_to_reg.
  assert (Hu : CInt.to_uint val = val).
  { unfold CInt.to_uint, CInt.UINT_MAX in *. apply Z.mod_small. lia. }
  rewrite Hu. split.
  - intros Hout.
    assert (Hc : (val <? tbl_at tbl 0)
                 || (val >? tbl_at tbl (Z.of_nat (length tbl) - 1)) = true).
    { apply orb_true_iff. destruct Hout as [H|H].
      - left. apply Z.ltb_lt. exact H.
      - right. rewrite Z.gtb_ltb. apply Z.ltb_lt. exact H. }
    rewrite Hc. reflexivity.
  - intros [Hlo Hhi].
    assert (Hc : (val <? tbl_at tbl 0)
                 || (val >? tbl_at tbl (Z.of_nat (length tbl) - 1)) = false).
    { apply orb_false_iff. split.
      - apply Z.ltb_ge. exact Hlo.
      - rewrite Z.gtb_ltb. apply Z.ltb_ge. exact Hhi. }
    rewrite Hc.
    destruct tbl as [|a rest]; [contradiction|].
    unfold tbl_at in Hlo. change (Z.to_nat 0) with 0%nat in Hlo.
    cbn [nth] in Hlo.
    destruct (convert_to_reg_scan_spec (a :: rest) val 0 a rest eq_refl Hlo)
      as (k & Hk & Hlen & Hle & Hlt).
    rewrite Hk. unfold tbl_at.
    replace (Z.to_nat (0 + Z.of_nat k)) with k by lia.
    replace (Z.to_nat (0 + Z.of_nat k + 1)) with (S k) by lia.
    split_and!; [lia | lia | exact Hle | intros H; apply Hlt; lia].
Qed.

(** X1: in range, [convert_to_reg] returns the index of an entry that is not
    above the value and whose successor, if any, is above it: the
    value is rounded down to the table.  Out of range it returns
    [-EINVAL].  No order of the table is needed for this. *)
Theorem convert_to_reg_brackets (tbl : list Z) (val : Z) :
  tbl <> [] ->
  0 <= val <= CInt.UINT_MAX ->
  let last := Z.of_nat (length tbl) - 1 in
  let r := convert_to_reg tbl val in
  (val < tbl_at tbl 0 \/ tbl_at tbl last < val -> r = - EINVAL) /\
  (tbl_at tbl 0 <= val <= tbl_at tbl last ->
     0 <= r <= last /\
     tbl_at tbl r <= val /\
     (r < last -> val < tbl_at tbl (r + 1))).
Proof. exact (convert_to_reg_spec tbl val). Qed.

(** X2: on a table in strictly increasing order whose entries fit an
    [unsigned int], [convert_to_reg] of the entry at index [i] is [i]:
    the index decodes through the table to the value that was encoded. *)
Theorem convert_to_reg_of_entry (tbl : list Z) (i : Z) :
  increasingb tbl = true ->
  0 <= tbl_at tbl 0 ->
  tbl_at tbl (Z.of_nat (length tbl) - 1) <= CInt.UINT_MAX ->
  0 <= i < Z.of_nat (length tbl) ->
  convert_to_reg tbl (tbl_at tbl i) = i.
Proof.
  intros Hinc H0 Hmax Hi.
  assert (Hne : tbl <> []) by (destruct tbl; [simpl in Hi; lia | discriminate]).
  assert (Hmono : forall x y, 0 <= x -> x <= y -> y < Z.of_nat (length tbl) ->
                    tbl_at tbl x <= tbl_at tbl y).
  { intros x y Hx Hxy Hy. unfold tbl_at.
    destruct (Z.eq_dec x y) as [->|Hneq]; [lia|].
    pose proof (increasingb_nth tbl Hinc (Z.to_nat x) (Z.to_nat y)
                  ltac:(lia) ltac:(lia)). lia. }
  assert (Hstrict : forall x y, 0 <= x -> x < y -> y < Z.of_nat (length tbl) ->
                    tbl_at tbl x < tbl_at tbl y).
  { intros x y Hx Hxy Hy. unfold tbl_at.
    apply (increasingb_nth tbl Hinc); lia. }
  pose proof (Hmono 0 i ltac:(lia) ltac:(lia) ltac:(lia)) as Hlo.
  pose proof (Hmono i (Z.of_nat (length tbl) - 1) ltac:(lia) ltac:(lia) ltac:(lia))
    as Hhi.
  destruct (convert_to_reg_spec tbl (tbl_at tbl i) Hne ltac:(lia))
    as [_ Hin].
  cbv zeta in Hin. destruct (Hin (conj Hlo Hhi)) as (Hr & Hle & Hlt).
  set (r := convert_to_reg tbl (tbl_at tbl i)) in *.
  destruct (Z_lt_le_dec i r) as [Hir|Hri].
  - pose proof (Hstrict i r ltac:(lia) Hir ltac:(lia)). lia.
  - destruct (Z.eq_dec r i) as [->|Hneq]; [reflexivity|].
    assert (Hr1 : r < Z.of_nat (length tbl) - 1) by lia.
    pose proof (Hlt Hr1).
    pose proof (Hmono (r + 1) i ltac:(lia) ltac:(lia) ltac:(lia)). lia.
Qed.



End Tables.

(** * Write protection of the configuration registers *)

Section WriteProtection.

Context {hdr : max77665_header} {ihdr : max77665_init_header}
        {bus : max77665_bus}.

Lemma result_ret {A} (a : A) w : result (ret a) w = a.
Proof. reflexivity. Qed.

Lemma ends_with_lock_enable_write : ends_with_lock (max77665_enable_write false).
Proof.
  intros w. destruct (enable_write_logs false w) as (rc & Hl & Hr).
  exists [], rc. split_and!.
  - exact Hl.
  - exact Hr.
  - apply (quiet_drv _ _ _ (quiet_enable_write false)).
  - constructor.
Qed.

Lemma ends_with_lock_bind {A} (c : M A) (k : A -> M Z) :
  quiet reg_access c -> (forall a, ends_with_lock (k a)) ->
  ends_with_lock (bind c k).
Proof.
  intros Hc Hk w.
  destruct (Hc w) as (Hd1 & l1 & Hl1 & Hf1).
  destruct (Hk (result c w) (run c w)) as (l2 & rc & Hl2 & Hr2 & Hd2 & Hf2).
  rewrite Hd1 in Hl2, Hd2, Hf2.
  exists (l1 ++ l2), rc. split_and!.
  - unfold logs in *. rewrite run_bind, Hl2, Hl1, <- !app_assoc. reflexivity.
  - rewrite result_bind. exact Hr2.
  - rewrite run_bind. exact Hd2.
  - apply Forall_app. split; assumption.
Qed.

Lemma quiet_update_reg reg value read_val :
  quiet reg_access (max77665_update_reg reg value read_val).
Proof.
  unfold max77665_update_reg.
  apply quiet_bind; [apply quiet_read_reg_access|].
  intros [rc v]. destruct (negb (rc =? 0)).
  - apply quiet_ret.
  - apply quiet_write_reg_access.
Qed.

Lemma quiet_access_of_write {A} (c : M A) :
  quiet reg_write_of c -> quiet reg_access c.
Proof. apply quiet_weaken. intros a Ha. right. exact Ha. Qed.

(** X4: the mode change locks the configuration registers again on every
    path that got them unlocked.  Its first action is the unlocking write;
    when that write fails it is the only action and its status is
    returned; otherwise the last action is the locking write, and the
    function returns the status of that write, whatever happened in
    between. *)
Theorem set_charger_mode_locks_again (m : max77665_mode) (w : world) :
  exists rc0,
    head (issued (max77665_set_charger_mode m) w) =
      Some (RegWrite MAX77665_CHG_CNFG_06 12 rc0, with_mode m (drv w)) /\
    (rc0 < 0 ->
       length (issued (max77665_set_charger_mode m) w) = 1%nat /\
       result (max77665_set_charger_mode m) w = rc0) /\
    (0 <= rc0 ->
       exists rc,
         last (issued (max77665_set_charger_mode m) w) =
           Some (RegWrite MAX77665_CHG_CNFG_06 0 rc, with_mode m (drv w)) /\
         result (max77665_set_charger_mode m) w = rc).
Proof.
  unfold max77665_set_charger_mode.
  set (w1 := run (set_charger (with_mode m)) w).
  destruct (enable_write_logs true w1) as (rc0 & Hl0 & Hr0).
  exists rc0.
  match goal with
  | |- context [bind (max77665_enable_write true) ?k] => set (rest := k)
  end.
  pose proof (quiet_drv _ _ w1 (quiet_enable_write true)) as Hd1.
  set (w2 := run (max77665_enable_write true) w1) in *.
  assert (Hlog : forall l,
            logs (rest rc0) w2 l ->
            issued (set_charger (with_mode m) >>
                    bind (max77665_enable_write true) rest) w =
              (RegWrite MAX77665_CHG_CNFG_06 12 rc0, with_mode m (drv w)) :: l).
  { intros l Hl. apply logs_issued. unfold logs in *.
    rewrite !run_bind. fold w1. fold w2. rewrite Hr0, Hl.
    change (klog w2) with (klog (run (max77665_enable_write true) w1)).
    rewrite Hl0. change (klog w1) with (klog w). change (drv w1) with (with_mode m (drv w)).
    rewrite <- app_assoc. reflexivity. }
  assert (Hres : result (set_charger (with_mode m) >>
                         bind (max77665_enable_write true) rest) w =
                 result (rest rc0) w2).
  { rewrite !result_bind. fold w1. rewrite Hr0. reflexivity. }
  rewrite Hres.
  destruct (rc0 <? 0) eqn:Hneg.
  - assert (Hl : logs (rest rc0) w2 []).
    { unfold rest. rewrite Hneg. apply logs_ret. }
    rewrite (Hlog _ Hl).
    split; [reflexivity|]. split.
    + intros _. split; [reflexivity|]. unfold rest. rewrite Hneg. reflexivity.
    + intros Hge. apply Z.ltb_lt in Hneg. lia.
  - assert (Hend : ends_with_lock (rest rc0)).
    { unfold rest. rewrite Hneg.
      apply ends_with_lock_bind; [apply quiet_write_reg_access|]. intros r1.
      destruct (r1 <? 0); [apply ends_with_lock_enable_write|].
      apply ends_with_lock_bind; [apply quiet_read_reg_access|]. intros [r2 flags].
      apply ends_with_lock_bind; [apply quiet_write_reg_access|]. intros r3.
      destruct (r3 <? 0); [apply ends_with_lock_enable_write|].
      apply ends_with_lock_bind; [apply quiet_get_charger|]. intros c.
      apply ends_with_lock_bind;
        [apply quiet_access_of_write, quiet_set_max_input_current|].
      intros _. apply ends_with_lock_enable_write. }
    destruct (Hend w2) as (l & rc & Hl & Hr & _ & _).
    rewrite (Hlog _ Hl).
    split; [reflexivity|]. split.
    + intros Hlt. apply Z.ltb_ge in Hneg. lia.
    + intros _. exists rc. split; [|exact Hr].
      rewrite Hd1. change (drv w1) with (with_mode m (drv w)).
      rewrite app_comm_cons. apply last_snoc.
Qed.

(** X5: [max77665_charger_init] always ends with the locking write, also when
    the unlocking write failed, and returns the status of that write: no
    failure of the configuration in between reaches the caller.  It only
    accesses registers and leaves the charger fields alone. *)
Theorem charger_init_returns_lock_status (fast_chg_cc term_volt : Z) (w : world) :
  let init := max77665_charger_init fast_chg_cc term_volt in
  exists rc,
    last (issued init w) = Some (RegWrite MAX77665_CHG_CNFG_06 0 rc, drv w) /\
    result init w = rc /\
    drv (run init w) = drv w /\
    Forall (fun e => reg_access e.1) (issued init w).
Proof.
  cbv zeta.
  assert (Hend : ends_with_lock (max77665_charger_init fast_chg_cc term_volt)).
  { unfold max77665_charger_init.
    apply ends_with_lock_bind;
      [apply quiet_access_of_write, quiet_enable_write|]. intros r0.
    destruct (r0 <? 0); [apply ends_with_lock_enable_write|].
    apply ends_with_lock_bind; [apply quiet_update_reg|]. intros r1.
    destruct (r1 <? 0); [apply ends_with_lock_enable_write|].
    apply ends_with_lock_bind.
    { destruct (negb _); [apply quiet_update_reg | apply quiet_ret]. }
    intros r2.
    destruct (r2 <? 0); [apply ends_with_lock_enable_write|].
    apply ends_with_lock_bind.
    { destruct (negb _); [apply quiet_update_reg | apply quiet_ret]. }
    intros _. apply ends_with_lock_enable_write. }
  destruct (Hend w) as (l & rc & Hl & Hr & Hd & Hf).
  apply logs_issued in Hl. rewrite Hl.
  exists rc. split_and!.
  - apply last_snoc.
  - exact Hr.
  - exact Hd.
  - apply Forall_app. split.
    + eapply Forall_impl; [exact Hf|]. intros e [He _]. exact He.
    + constructor; [right; exact I | constructor].
Qed.

(** X6: [max77665_update_reg] with a negative value, such as the error code
    [convert_to_reg] hands back for a value outside its table, never
    writes: it reads the register once and returns a status that is not
    0, the read's own or [-EINVAL]. *)
Theorem update_reg_refuses_negative (reg value read_val : Z) (w : world) :
  value < 0 -> 0 < EINVAL ->
  let u := max77665_update_reg reg value read_val in
  (exists rc v, issued u w = [(RegRead reg rc v, drv w)]) /\
  result u w <> 0.
Proof.
  intros Hneg Herr. cbv zeta. unfold max77665_update_reg.
  destruct (read_reg_spec reg read_val w) as (rc & v & Hl & Hr & Hd & Hv).
  split.
  - exists rc, v. apply logs_issued. unfold logs in *.
    rewrite run_bind, Hr.
    destruct (negb (rc =? 0)) eqn:Hz; [rewrite run_ret; exact Hl|].
    assert (Hlor : Z.lor (if 0 >? rc then read_val else v) value < 0).
    { apply negb_false_iff, Z.eqb_eq in Hz. subst rc.
      change (0 >? 0) with false. cbv iota.
      apply Z.lor_neg. right. exact Hneg. }
    unfold max77665_write_reg.
    apply Z.ltb_lt in Hlor. rewrite Hlor. cbn [orb].
    rewrite run_ret. exact Hl.
  - rewrite result_bind, Hr.
    destruct (negb (rc =? 0)) eqn:Hz.
    + rewrite result_ret. apply negb_true_iff, Z.eqb_neq in Hz. exact Hz.
    + assert (Hlor : Z.lor (if 0 >? rc then read_val else v) value < 0).
      { apply negb_false_iff, Z.eqb_eq in Hz. subst rc.
        change (0 >? 0) with false. cbv iota.
        apply Z.lor_neg. right. exact Hneg. }
      unfold max77665_write_reg.
      apply Z.ltb_lt in Hlor. rewrite Hlor. cbn [orb].
      rewrite result_ret. lia.
Qed.

End WriteProtection.

(** * Charging check, ceiling register and interrupt path *)

Section ChecksAndInterrupts.

Context {hdr : max77665_header} {bus : max77665_bus}.

(** X7: charging is judged OK exactly when the input details and then the
    regulation-loop details were both read successfully and both carry
    their valid code; a failed or invalid first read ends the check
    without the second.  The check reads at most these two registers and
    leaves the charger fields alone. *)
Theorem check_charging_ok_needs_both_valid (w : world) :
  let c := max77665_check_charging_ok in
  drv (run c w) = drv w /\
  (length (issued c w) <= 2)%nat /\
  Forall (fun e => reg_read_of e.1) (issued c w) /\
  (result c w = true <->
   exists rc0 v0 rc2 v2,
     issued c w = [(RegRead MAX77665_CHG_DTLS_00 rc0 v0, drv w);
                   (RegRead MAX77665_CHG_DTLS_02 rc2 v2, drv w)] /\
     0 <= rc0 /\ CHGIN_DTLS_MASK v0 = CHGIN_DTLS_VALID /\
     0 <= rc2 /\ BYP_DTLS_MASK v2 = BYP_DTLS_VALID).
Proof.
  cbv zeta. unfold max77665_check_charging_ok.
  destruct (read_reg_spec MAX77665_CHG_DTLS_00 0 w)
    as (rc0 & v0 & Hl0 & Hr0 & Hd0 & _).
  unfold logs in Hl0.
  set (w1 := run (max77665_read_reg MAX77665_CHG_DTLS_00 0) w) in *.
  destruct (read_reg_spec MAX77665_CHG_DTLS_02 0 w1)
    as (rc2 & v2 & Hl2 & Hr2 & Hd2 & _).
  unfold logs in Hl2.
  rewrite Hd0 in Hl2, Hd2.
  assert (Hsign : forall rc, (0 >? rc) = (rc <? 0)) by (intros; apply Z.gtb_ltb).
  rewrite Hsign in Hr0, Hr2.
  rewrite run_bind, result_bind. fold w1. rewrite Hr0.
  unfold issued. rewrite run_bind. fold w1. rewrite Hr0.
  destruct (rc0 <? 0) eqn:E0.
  { cbn [orb]. rewrite run_ret, result_ret. rewrite Hl0.
    rewrite drop_app_length.
    split_and!; [exact Hd0 | simpl; lia | repeat constructor |].
    split; [discriminate|].
    intros (a & b & c & d & Heq & _). discriminate Heq. }
  cbn [orb].
  destruct (CHGIN_DTLS_MASK v0 =? CHGIN_DTLS_VALID) eqn:Em0; cbn [negb].
  2:{ rewrite run_ret, result_ret. rewrite Hl0.
      rewrite drop_app_length.
      split_and!; [exact Hd0 | simpl; lia | repeat constructor |].
      split; [discriminate|].
      intros (a & b & c & d & Heq & _). discriminate Heq. }
  rewrite run_bind, result_bind, Hr2.
  assert (Hlog : forall b : bool,
    drop (length (klog w))
      (klog (run (ret b) (run (max77665_read_reg MAX77665_CHG_DTLS_02 0) w1))) =
    [(RegRead MAX77665_CHG_DTLS_00 rc0 v0, drv w);
     (RegRead MAX77665_CHG_DTLS_02 rc2 v2, drv w)]).
  { intros b. rewrite run_ret.
    rewrite Hl2, Hl0, <- app_assoc. apply drop_app_length. }
  apply Z.ltb_ge in E0. apply Z.eqb_eq in Em0.
  destruct (rc2 <? 0) eqn:E2; cbn [orb].
  { rewrite Hlog, run_ret, result_ret.
    split_and!; [exact Hd2 | simpl; lia | repeat constructor |].
    split; [discriminate|].
    intros (a & b & c & d & Heq & _ & _ & Hc & _).
    injection Heq as _ _ <- _. apply Z.ltb_lt in E2. lia. }
  destruct (BYP_DTLS_MASK v2 =? BYP_DTLS_VALID) eqn:Em2; cbn [negb];
    rewrite Hlog, run_ret, result_ret;
    (split_and!; [exact Hd2 | simpl; lia | repeat constructor |]).
  - split; [|reflexivity]. intros _.
    exists rc0, v0, rc2, v2. apply Z.ltb_ge in E2. apply Z.eqb_eq in Em2.
    split_and!; auto.
  - split; [discriminate|].
    intros (a & b & c & d & Heq & _ & _ & _ & Hm).
    injection Heq as _ _ _ <-. apply Z.eqb_neq in Em2. contradiction.
Qed.

(** X8: on a chip that reads the ceiling register back as it was just
    written, the ceiling read after programming [mA] is [mA] rounded down
    to the current step, or the minimum current limit if that is
    larger: never more than what was asked for or the minimum, and less
    than one step below what was asked for. *)
Theorem get_after_set_max_input_current
    (mA val : Z) (w : world) (rcw rcr : Z) (h1 h2 : chip) :
  0 < CURRENT_STEP_mA ->
  0 <= mA <= CInt.INT_MAX ->
  Z.quot mA CURRENT_STEP_mA <= 127 ->
  max77665_write (hw w) MAX77665_CHG_CNFG_09 (Z.quot mA CURRENT_STEP_mA) = (rcw, h1) ->
  max77665_read h1 MAX77665_CHG_CNFG_09 = (rcr, Z.quot mA CURRENT_STEP_mA, h2) ->
  0 <= rcr ->
  let w1 := run (max77665_set_max_input_current mA) w in
  let ilim := (result (max77665_get_max_input_current val) w1).2 in
  (result (max77665_get_max_input_current val) w1).1 = rcr /\
  ilim = Z.max (CInt.to_int MIN_CURRENT_LIMIT_mA)
               (CURRENT_STEP_mA * Z.quot mA CURRENT_STEP_mA) /\
  mA - CURRENT_STEP_mA < ilim /\
  ilim <= Z.max (CInt.to_int MIN_CURRENT_LIMIT_mA) mA.
Proof.
  intros Hstep HmA Hq Hwrite Hread Hrcr. cbv zeta.
  set (q := Z.quot mA CURRENT_STEP_mA) in *.
  assert (Hq0 : 0 <= q /\ CURRENT_STEP_mA * q <= mA /\ mA < CURRENT_STEP_mA * q + CURRENT_STEP_mA).
  { unfold q. Z.to_euclidean_division_equations. nia. }
  assert (Hdiv : CInt.div mA CURRENT_STEP_mA = q).
  { unfold CInt.div. fold q. apply to_int_id.
    unfold CInt.in_int, CInt.INT_MIN, CInt.INT_MAX in *. lia. }
  assert (Hw1 : hw (run (max77665_set_max_input_current mA) w) = h1).
  { unfold max77665_set_max_input_current, max77665_write_reg.
    rewrite Hdiv.
    assert (Hr : (q <? 0) || (q >? 255) = false).
    { apply orb_false_iff. split; [apply Z.ltb_ge; lia|].
      rewrite Z.gtb_ltb. apply Z.ltb_ge. lia. }
    rewrite Hr. unfold run, bind, bus_write, ret. rewrite Hwrite. reflexivity. }
  set (w1 := run (max77665_set_max_input_current mA) w) in *.
  assert (Hres : result (max77665_get_max_input_current val) w1 =
            (rcr, Z.max (CInt.to_int MIN_CURRENT_LIMIT_mA)
                        (CInt.to_int (CInt.to_uint (Z.land q 127 * CURRENT_STEP_mA))))).
  { unfold max77665_get_max_input_current, max77665_read_reg, result, bind,
      bus_read, ret. rewrite Hw1, Hread.
    assert (Hu8 : CInt.to_u8 q = q) by (unfold CInt.to_u8; apply Z.mod_small; lia).
    rewrite Hu8.
    assert (Hg : (0 >? rcr) = false) by (rewrite Z.gtb_ltb; apply Z.ltb_ge; lia).
    rewrite Hg. reflexivity. }
  rewrite Hres. cbn [fst snd].
  assert (Hland : Z.land q 127 = q).
  { change 127 with (Z.ones 7). rewrite Z.land_ones by lia.
    apply Z.mod_small. change (2 ^ 7) with 128. lia. }
  rewrite Hland.
  assert (Hexact : CInt.to_int (CInt.to_uint (q * CURRENT_STEP_mA)) =
                   CURRENT_STEP_mA * q).
  { unfold CInt.INT_MAX in HmA.
    unfold CInt.to_uint. rewrite Z.mod_small by nia.
    rewrite to_int_id; [lia|].
    unfold CInt.in_int, CInt.INT_MIN, CInt.INT_MAX. nia. }
  rewrite Hexact. split_and!; [reflexivity | reflexivity | lia | lia].
Qed.








End ChecksAndInterrupts.

Section CeilingRange.

Context {hdr : max77665_header} {bus : max77665_bus}.

(** X9: a current whose register value [mA / CURRENT_STEP_mA] does not fit a
    byte is dropped without a trace: [max77665_set_max_input_current]
    touches neither the chip nor the charger fields, issues nothing, and
    still returns 0; so does the writable CURRENT_MAX property, which
    passes [intval / 1000]. *)
Theorem set_max_input_current_drops_out_of_range (mA : Z) (w : world) :
  CInt.div mA CURRENT_STEP_mA < 0 \/ 255 < CInt.div mA CURRENT_STEP_mA ->
  run (max77665_set_max_input_current mA) w = w /\
  result (max77665_set_max_input_current mA) w = 0 /\
  (forall intval, CInt.div intval 1000 = mA ->
     run (max77665_charger_set_property POWER_SUPPLY_PROP_CURRENT_MAX intval) w = w /\
     result (max77665_charger_set_property POWER_SUPPLY_PROP_CURRENT_MAX intval) w = 0).
Proof.
  intros Hout.
  assert (Hrun : run (max77665_set_max_input_current mA) w = w /\
                 result (max77665_set_max_input_current mA) w = 0).
  { unfold max77665_set_max_input_current, max77665_write_reg.
    assert (Hr : (CInt.div mA CURRENT_STEP_mA <? 0)
                 || (CInt.div mA CURRENT_STEP_mA >? 255) = true).
    { apply orb_true_iff. destruct Hout as [H|H].
      - left. apply Z.ltb_lt. exact H.
      - right. rewrite Z.gtb_ltb. apply Z.ltb_lt. exact H. }
    rewrite Hr. split; reflexivity. }
  destruct Hrun as [Hw Hr].
  split; [exact Hw|]. split; [exact Hr|].
  intros intval <-. cbn [max77665_charger_set_property].
  split; assumption.
Qed.

End CeilingRange.

(** * Enable, reset and the watchdog alarm *)

Section EnableAndReset.

Context {hdr : max77665_header} {bus : max77665_bus}.

Lemma result_eq {A} (c c' : M A) w : c w = c' w -> result c w = result c' w.
Proof. unfold result. intros ->. reflexivity. Qed.

Lemma result_enable_charger_done r w : result (enable_charger_done r) w = r.
Proof.
  unfold enable_charger_done. rewrite !result_bind. reflexivity.
Qed.

(** After the cable tests: the mode is stored, ceiling and online flags
    stay, and either an error is returned or the watchdog alarm is armed
    at half its period. *)
Lemma enable_charger_apply_outcome m val w :
  let w' := run (enable_charger_apply m val) w in
  mode (drv w') = m /\
  max_current_mA (drv w') = max_current_mA (drv w) /\
  usb_online (drv w') = usb_online (drv w) /\
  ac_online (drv w') = ac_online (drv w) /\
  (result (enable_charger_apply m val) w < 0 \/
   wdt_alarm (drv w') = Some (Z.quot MAX77665_WATCHDOG_TIMER_PERIOD_S 2)).
Proof.
  cbv zeta. rewrite enable_charger_apply_drv.
  unfold enable_charger_apply. rewrite result_bind.
  destruct (result (max77665_set_charger_mode m) w <? 0) eqn:Hr.
  - rewrite result_enable_charger_done. apply Z.ltb_lt in Hr.
    split_and!; try reflexivity. left. exact Hr.
  - split_and!; try reflexivity. right. reflexivity.
Qed.

(** The outcome of [max77665_enable_charger] by class of the attached
    source. *)
Lemma enable_charger_outcome edev val w :
  let w' := run (max77665_enable_charger edev val) w in
  match classify edev with
  | Some k =>
      mode (drv w') = class_mode k /\
      max_current_mA (drv w') = class_ceiling k /\
      usb_online (drv w') = class_usb_online k /\
      ac_online (drv w') = class_ac_online k /\
      (result (max77665_enable_charger edev val) w < 0 \/
       wdt_alarm (drv w') = Some (Z.quot MAX77665_WATCHDOG_TIMER_PERIOD_S 2))
  | None =>
      drv w' = with_ac_online 0 (with_usb_online 0 (drv w)) /\
      result (max77665_enable_charger edev val) w = 0
  end.
Proof.
  cbv zeta.
  rewrite (run_eq _ _ _ (enable_charger_split edev val w)).
  rewrite (result_eq _ _ _ (enable_charger_split edev val w)).
  rewrite run_bind, result_bind.
  destruct (enable_charger_prefix w) as (Hd0 & Hh0 & Hk0).
  match type of Hd0 with drv ?x = _ => set (w0 := x) in * end.
  unfold classify, cable_attached. cbn [List.find cable_name].
  repeat match goal with
  | |- context [extcon_get_cable_state edev ?n =? 1] =>
      destruct (extcon_get_cable_state edev n =? 1)
  end.
  1-6: rewrite !run_bind, !result_bind;
       match goal with
       | |- context [run (enable_charger_apply ?m ?v) ?x] =>
           destruct (enable_charger_apply_outcome m v x)
             as (Hm & Hc & Hu & Ha & Hw)
       end;
       cbv zeta in Hm, Hc, Hu, Ha, Hw;
       split_and!;
         [ rewrite Hm; reflexivity
         | rewrite Hc; cbn; rewrite ?Hd0; reflexivity
         | rewrite Hu; cbn; rewrite ?Hd0; reflexivity
         | rewrite Ha; cbn; rewrite ?Hd0; reflexivity
         | exact Hw ].
  pose proof (quiet_drv _ _ w0 (quiet_enable_charger_done 0)) as Hd.
  rewrite Hd, Hd0, result_enable_charger_done. split; reflexivity.
Qed.

(** X11: with a listed cable attached, [max77665_enable_charger] returns
    without error only with the watchdog alarm armed at half the watchdog
    period.  With none attached it returns 0 and leaves the alarm as it
    was. *)
Theorem enable_charger_arms_watchdog
    (edev : gmap string bool) (val : Z) (w : world) :
  let w' := run (max77665_enable_charger edev val) w in
  match classify edev with
  | Some _ =>
      0 <= result (max77665_enable_charger edev val) w ->
      wdt_alarm (drv w') = Some (Z.quot MAX77665_WATCHDOG_TIMER_PERIOD_S 2)
  | None =>
      result (max77665_enable_charger edev val) w = 0 /\
      wdt_alarm (drv w') = wdt_alarm (drv w)
  end.
Proof.
  cbv zeta. pose proof (enable_charger_outcome edev val w) as H.
  cbv zeta in H. destruct (classify edev).
  - destruct H as (_ & _ & _ & _ & [Hneg | Harm]); [lia | intros _; exact Harm].
  - destruct H as [Hd Hr]. rewrite Hd. split; [exact Hr | reflexivity].
Qed.

Lemma reset_charger_run edev val w :
  run (max77665_reset_charger edev val) w =
    if result max77665_disable_charger w <? 0
    then run max77665_disable_charger w
    else run (max77665_enable_charger edev val) (run max77665_disable_charger w).
Proof.
  unfold max77665_reset_charger. rewrite run_bind.
  destruct (result max77665_disable_charger w <? 0); [reflexivity|].
  rewrite run_bind. reflexivity.
Qed.

(** X12: [max77665_reset_charger] returns 0 whatever happens.  When the
    disable step reports an error the enable step is skipped, so that the
    charger is left off even with a cable attached; the same holds when no
    listed cable is attached: mode OFF, ceiling 0, both online flags 0,
    watchdog disarmed.  When the disable step succeeds and a listed cable
    is attached, mode, ceiling and online flags are those of its class. *)
Theorem reset_charger_outcome
    (edev : gmap string bool) (val : Z) (w : world) :
  let w' := run (max77665_reset_charger edev val) w in
  result (max77665_reset_charger edev val) w = 0 /\
  (result max77665_disable_charger w < 0 \/ classify edev = None ->
     mode (drv w') = OFF /\ max_current_mA (drv w') = 0 /\
     ac_online (drv w') = 0 /\ usb_online (drv w') = 0 /\
     wdt_alarm (drv w') = None /\ wdt_ack_work (drv w') = None) /\
  (0 <= result max77665_disable_charger w ->
     forall k, classify edev = Some k ->
       mode (drv w') = class_mode k /\
       max_current_mA (drv w') = class_ceiling k /\
       usb_online (drv w') = class_usb_online k /\
       ac_online (drv w') = class_ac_online k).
Proof.
  cbv zeta. split.
  { unfold max77665_reset_charger. rewrite result_bind.
    destruct (result max77665_disable_charger w <? 0); [reflexivity|].
    rewrite result_bind. reflexivity. }
  rewrite reset_charger_run.
  destruct (disable_charger_spec w) as (Hd & _).
  pose proof (enable_charger_outcome edev val (run max77665_disable_charger w))
    as He. cbv zeta in He.
  destruct (result max77665_disable_charger w <? 0) eqn:Hr.
  - split.
    + intros _. rewrite Hd. repeat split.
    + intros Hge. apply Z.ltb_lt in Hr. lia.
  - split.
    + intros [Hneg | Hnone]; [apply Z.ltb_ge in Hr; lia|].
      rewrite Hnone in He. destruct He as [He _].
      rewrite He, Hd. repeat split.
    + intros _ k Hk. rewrite Hk in He.
      destruct He as (Hm & Hc & Hu & Ha & _). auto.
Qed.

End EnableAndReset.

(** * The recalibration work *)

Section RecalibrationWork.

Context {hdr : max77665_header} {bus : max77665_bus}.




End RecalibrationWork.

(** * The watchdog heartbeat and the cable debouncer *)

Section Heartbeat.

Context {hdr : max77665_header} {ihdr : max77665_init_header}
        {bus : max77665_bus}.

(** X14: the heartbeat goes on whatever the transport does.  The alarm
    callback takes the wake lock and leaves the acknowledgment work
    pending.  The acknowledgment handler reads the watchdog register,
    writes it back at most once, with the clear bits added to the byte it
    read and only after a read with status 0, then always starts the
    alarm again for 30 s and releases the wake lock; nothing else in the
    charger fields changes. *)
Theorem wdt_heartbeat_goes_on (s : wdt_state) :
  let t := max77665_charger_wdt_timer s in
  let a := max77665_charger_wdt_ack_work_handler s in
  (t.2 = true /\
   wdt_ack_work (drv t.1) = Some (default 0 (wdt_ack_work (drv s.1)))) /\
  a.2 = false /\
  drv a.1 = with_wdt_alarm (Some 30) (drv s.1) /\
  exists rc v writes,
    klog a.1 =
      klog s.1 ++ [(RegRead MAX77665_CHG_CNFG_06 rc v, drv s.1)] ++ writes ++
      [(AlarmStart 30, drv s.1)] /\
    (length writes <= 1)%nat /\
    (rc <> 0 -> writes = []) /\
    Forall (fun e => exists rcw,
              e.1 = RegWrite MAX77665_CHG_CNFG_06 (Z.lor v WDTCLR) rcw) writes.
Proof.
  cbv zeta. destruct s as [w held]. cbn [fst snd].
  split.
  { unfold max77665_charger_wdt_timer. cbn [fst snd].
    split; [reflexivity|].
    unfold schedule_delayed_work, run, bind, emit, set_charger. cbn.
    destruct (wdt_ack_work (drv w)) eqn:E; cbn; rewrite ?E; reflexivity. }
  unfold max77665_charger_wdt_ack_work_handler. cbn [fst snd].
  split; [reflexivity|].
  destruct (read_reg_spec MAX77665_CHG_CNFG_06 0 w)
    as (rc & v & Hl & Hr & Hd & Hv).
  unfold logs in Hl.
  pose proof (quiet_drv _ _ w (quiet_update_reg MAX77665_CHG_CNFG_06 WDTCLR 0))
    as Hdu.
  rewrite run_bind.
  set (wu := run (max77665_update_reg MAX77665_CHG_CNFG_06 WDTCLR 0) w) in *.
  assert (Hlast : forall x : world,
            run (alarm_start 30) x =
            World (hw x) (with_wdt_alarm (Some 30) (drv x))
                  (klog x ++ [(AlarmStart 30, drv x)])) by reflexivity.
  rewrite Hlast. cbn [drv klog]. rewrite Hdu.
  split; [reflexivity|].
  exists rc, v.
  assert (Hu : exists writes,
            klog wu = klog w ++ [(RegRead MAX77665_CHG_CNFG_06 rc v, drv w)] ++ writes /\
            (length writes <= 1)%nat /\
            (rc <> 0 -> writes = []) /\
            Forall (fun e : action * max77665_charger => exists rcw,
                      e.1 = RegWrite MAX77665_CHG_CNFG_06 (Z.lor v WDTCLR) rcw)
                   writes).
  { unfold wu, max77665_update_reg. rewrite run_bind, Hr.
    set (w1 := run (max77665_read_reg MAX77665_CHG_CNFG_06 0) w) in *.
    destruct (negb (rc =? 0)) eqn:Hz.
    - exists []. rewrite run_ret, Hl.
      split_and!; [reflexivity | simpl; lia | reflexivity | constructor].
    - apply negb_false_iff, Z.eqb_eq in Hz. subst rc.
      change (0 >? 0) with false. cbv iota.
      unfold max77665_write_reg.
      destruct ((Z.lor v WDTCLR <? 0) || (Z.lor v WDTCLR >? 255)).
      + exists []. rewrite run_ret, Hl.
        split_and!; [reflexivity | simpl; lia | reflexivity | constructor].
      + unfold run, bus_write.
        destruct (max77665_write (hw w1) MAX77665_CHG_CNFG_06 (Z.lor v WDTCLR))
          as [rcw h].
        exists [(RegWrite MAX77665_CHG_CNFG_06 (Z.lor v WDTCLR) rcw, drv w)].
        cbn [snd klog]. fold (run (max77665_read_reg MAX77665_CHG_CNFG_06 0) w).
        fold w1. rewrite Hl, Hd, <- app_assoc.
        split_and!; [reflexivity | simpl; lia | intros H; contradiction |].
        constructor; [exists rcw; reflexivity | constructor]. }
  destruct Hu as (writes & Hk & Hlen & Hnz & Hf).
  exists writes. rewrite Hk, <- !app_assoc.
  split_and!; [reflexivity | exact Hlen | exact Hnz | exact Hf].
Qed.


End Heartbeat.

(** * More of the driver on the simulated chip *)

Section MoreEvaluation.

Import Sample SampleInit.

(** 1000 mA in the fast-charge table: index 30, the entry 999. *)
Lemma convert_to_reg_brackets_1000 :
  (chg_cc <> [] /\ 0 <= 1000 <= CInt.UINT_MAX) /\
  let last := Z.of_nat (length chg_cc) - 1 in
  let r := convert_to_reg chg_cc 1000 in
  (1000 < tbl_at chg_cc 0 \/ tbl_at chg_cc last < 1000 -> r = - EINVAL) /\
  (tbl_at chg_cc 0 <= 1000 <= tbl_at chg_cc last ->
     0 <= r <= last /\
     tbl_at chg_cc r <= 1000 /\
     (r < last -> 1000 < tbl_at chg_cc (r + 1))).
Proof.
  assert (H1 : chg_cc <> []) by discriminate.
  assert (H2 : 0 <= 1000 <= CInt.UINT_MAX) by (vm_compute; split; discriminate).
  split; [auto|].
  exact (convert_to_reg_brackets chg_cc 1000 H1 H2).
Defined.

(** Both tables of the driver are in increasing order, so each of their
    entries converts to its own index; here entry 43 of the fast-charge
    table. *)
Lemma convert_to_reg_of_entry_43 :
  (increasingb chg_cc = true /\ increasingb chg_cv_prm = true /\
   0 <= tbl_at chg_cc 0 /\
   tbl_at chg_cc (Z.of_nat (length chg_cc) - 1) <= CInt.UINT_MAX /\
   0 <= 43 < Z.of_nat (length chg_cc)) /\
  convert_to_reg chg_cc (tbl_at chg_cc 43) = 43.
Proof.
  assert (H1 : increasingb chg_cc = true) by reflexivity.
  assert (H1' : increasingb chg_cv_prm = true) by reflexivity.
  assert (H2 : 0 <= tbl_at chg_cc 0) by (vm_compute; discriminate).
  assert (H3 : tbl_at chg_cc (Z.of_nat (length chg_cc) - 1) <= CInt.UINT_MAX)
    by (vm_compute; discriminate).
  assert (H4 : 0 <= 43 < Z.of_nat (length chg_cc))
    by (vm_compute; split; [discriminate | reflexivity]).
  split; [auto 6|].
  exact (convert_to_reg_of_entry chg_cc 43 H1 H2 H3 H4).
Defined.

(** A fast-charge current of 5000 mA is outside the table; its error code
    is not written to the chip. *)
Lemma update_reg_refuses_out_of_table :
  let value := convert_to_reg chg_cc 5000 in
  let u := max77665_update_reg 185 value 0 in
  (value < 0 /\ 0 < EINVAL) /\
  (exists rc v, issued u weak_adapter = [(RegRead 185 rc v, drv weak_adapter)]) /\
  result u weak_adapter <> 0.
Proof.
  cbv zeta.
  assert (H1 : convert_to_reg chg_cc 5000 < 0) by (vm_compute; reflexivity).
  assert (H2 : 0 < EINVAL) by (vm_compute; reflexivity).
  split; [auto|].
  exact (update_reg_refuses_negative 185 (convert_to_reg chg_cc 5000) 0
           weak_adapter H1 H2).
Defined.

(** The initialisation with that current: the configuration of the
    fast-charge register is refused and the termination voltage is never
    reached, yet the function returns 0, the status of the locking
    write. *)
Lemma charger_init_hides_refusal :
  let init := max77665_charger_init 5000 4200 in
  result init weak_adapter = 0 /\
  map fst (issued init weak_adapter) =
    [RegWrite MAX77665_CHG_CNFG_06 12 0;
     RegRead MAX77665_CHG_CNFG_01 0 0; RegWrite MAX77665_CHG_CNFG_01 145 0;
     RegRead MAX77665_CHG_CNFG_02 0 0;
     RegWrite MAX77665_CHG_CNFG_06 0 0].
Proof. vm_compute. split; reflexivity. Qed.

(** Programming 510 mA on the simulated chip and reading the ceiling
    back gives 500 mA. *)
Lemma get_after_set_510 :
  let w := weak_adapter in
  let h1 := (sim_write (hw w) 192 25).2 in
  (0 < CURRENT_STEP_mA /\ 0 <= 510 <= CInt.INT_MAX /\
   Z.quot 510 CURRENT_STEP_mA <= 127 /\
   max77665_write (hw w) MAX77665_CHG_CNFG_09 (Z.quot 510 CURRENT_STEP_mA)
     = (0, h1) /\
   max77665_read h1 MAX77665_CHG_CNFG_09
     = (0, Z.quot 510 CURRENT_STEP_mA, h1) /\
   0 <= 0) /\
  let w1 := run (max77665_set_max_input_current 510) w in
  let ilim := (result (max77665_get_max_input_current 0) w1).2 in
  (result (max77665_get_max_input_current 0) w1).1 = 0 /\
  ilim = Z.max (CInt.to_int MIN_CURRENT_LIMIT_mA)
               (CURRENT_STEP_mA * Z.quot 510 CURRENT_STEP_mA) /\
  510 - CURRENT_STEP_mA < ilim /\
  ilim <= Z.max (CInt.to_int MIN_CURRENT_LIMIT_mA) 510.
Proof.
  cbv zeta.
  assert (H1 : 0 < CURRENT_STEP_mA) by (vm_compute; reflexivity).
  assert (H2 : 0 <= 510 <= CInt.INT_MAX) by (vm_compute; split; discriminate).
  assert (H3 : Z.quot 510 CURRENT_STEP_mA <= 127) by (vm_compute; discriminate).
  assert (H4 : max77665_write (hw weak_adapter) MAX77665_CHG_CNFG_09
                 (Z.quot 510 CURRENT_STEP_mA)
               = (0, (sim_write (hw weak_adapter) 192 25).2))
    by (vm_compute; reflexivity).
  assert (H5 : max77665_read (sim_write (hw weak_adapter) 192 25).2
                 MAX77665_CHG_CNFG_09
               = (0, Z.quot 510 CURRENT_STEP_mA,
                  (sim_write (hw weak_adapter) 192 25).2))
    by (vm_compute; reflexivity).
  assert (H6 : 0 <= 0) by lia.
  split; [auto 10|].
  exact (get_after_set_max_input_current 510 0 weak_adapter 0 0 _ _
           H1 H2 H3 H4 H5 H6).
Defined.

(** A request for 6 A through the CURRENT_MAX property (6000000 uA) is
    dropped: 6000 / 20 = 300 does not fit the register. *)
Lemma set_max_input_current_drops_6A :
  (CInt.div 6000 CURRENT_STEP_mA < 0 \/ 255 < CInt.div 6000 CURRENT_STEP_mA) /\
  run (max77665_set_max_input_current 6000) weak_adapter = weak_adapter /\
  result (max77665_set_max_input_current 6000) weak_adapter = 0 /\
  (forall intval, CInt.div intval 1000 = 6000 ->
     run (max77665_charger_set_property POWER_SUPPLY_PROP_CURRENT_MAX intval)
         weak_adapter = weak_adapter /\
     result (max77665_charger_set_property POWER_SUPPLY_PROP_CURRENT_MAX intval)
            weak_adapter = 0).
Proof.
  assert (H : CInt.div 6000 CURRENT_STEP_mA < 0 \/
              255 < CInt.div 6000 CURRENT_STEP_mA)
    by (right; vm_compute; reflexivity).
  split; [exact H|].
  exact (set_max_input_current_drops_out_of_range 6000 weak_adapter H).
Defined.


(** What that run looks like: the check fails, the two fault bits are
    masked (65), the outputs are switched off, five probes are made and
    the old safe-out control and mask are written back. *)
Lemma ideal_input_current_work_trace :
  let W := max77665_set_ideal_input_current_work 31 0 0 in
  let l := map fst (issued W sagging_usb) in
  take 6 l =
    [RegRead MAX77665_CHG_DTLS_00 0 96; RegRead MAX77665_CHG_DTLS_02 0 1;
     RegRead MAX77665_CHG_INT_MASK 0 0; RegWrite MAX77665_CHG_INT_MASK 65 0;
     RegRead MAX77665_SAFEOUTCTRL 0 0; RegWrite MAX77665_SAFEOUTCTRL 0 0] /\
  drop 26 l =
    [RegWrite MAX77665_SAFEOUTCTRL 0 0; RegWrite MAX77665_CHG_INT_MASK 0 0] /\
  max_current_mA (drv (run W sagging_usb)) = 462.
Proof. vm_compute. split_and!; reflexivity. Qed.


End MoreEvaluation.
